(** * Heizungsbeluefter: relay fail-safe and Zigbee command routing

    A shallow embedding of [relay.c], [zigbee_handler.c] and the glue of
    [app_main.c] / [Heizungsbeluefter.ino].  The C globals become fields of
    explicit world records that every function threads through; the vendor
    SDK (GPIO driver, Zigbee stack, logger) is modelled by the calls the
    firmware makes to it, recorded in program order. *)

From Stdlib Require Import ZArith NArith List Bool Lia Permutation.
From Stdlib Require String.
Import String.StringSyntax.
Delimit Scope string_scope with string.
Import ListNotations.
Open Scope Z_scope.

(* ================================================================== *)
(** * C scalars and SDK constants *)
(* ================================================================== *)

(** [esp_err_t] is a C [int]; the three codes used by the firmware carry
    their ESP-IDF values. *)
Definition esp_err_t := Z.
Definition ESP_OK : esp_err_t := 0.
Definition ESP_FAIL : esp_err_t := -1.
Definition ESP_ERR_INVALID_ARG : esp_err_t := 0x102.

(** C truth value of a scalar used as a condition. *)
Definition c_true (v : Z) : bool := negb (v =? 0).

(** One line per logging statement of the firmware, tagged by module. *)
Inductive log_line :=
(* relay.c *)
| RLOG_initializing (pin : Z)
| RLOG_config_failed (pin : Z) (ret : esp_err_t)
| RLOG_initialized
| RLOG_set (on : bool) (pin level : Z)
| RLOG_toggled (on : bool)
(* app_main.c *)
| MLOG_command_received (on : bool)
(* zigbee_handler.c, ZDO signals *)
| ZLOG_stack_initialized
| ZLOG_started_up (first_start : bool)
| ZLOG_start_steering
| ZLOG_rejoining
| ZLOG_startup_failed (status : esp_err_t)
| ZLOG_joined_network
| ZLOG_extended_pan_id
| ZLOG_pan_id
| ZLOG_channel
| ZLOG_short_address
| ZLOG_steering_failed (status : esp_err_t)
| ZLOG_zdo_signal (sig_type : Z) (status : esp_err_t)
(* zigbee_handler.c, attribute messages *)
| ZLOG_empty_message
| ZLOG_error_status (status : Z)
| ZLOG_received_message (endpoint cluster attribute size : Z)
| ZLOG_on_off_command (on : bool)
| ZLOG_action (callback_id : Z)
| ZLOG_callback_registered.

(* ================================================================== *)
(** * relay.h / relay.c *)
(* ================================================================== *)

Definition RELAY_GPIO_PIN : Z := 8.
Definition RELAY_ACTIVE_LEVEL : Z := 1.

Inductive gpio_mode_t := GPIO_MODE_DISABLE | GPIO_MODE_INPUT | GPIO_MODE_OUTPUT.

Record gpio_config_t := {
  pin_bit_mask : Z;
  mode : gpio_mode_t;
  pull_up_en : bool;
  pull_down_en : bool;
  intr_enabled : bool
}.

(** Calls into the GPIO driver, as the driver sees them. *)
Inductive gpio_call :=
| GPIO_config (cfg : gpio_config_t) (ret : esp_err_t)
| GPIO_set_level (gpio_num level : Z).

(** The relay module's world: the static [s_relay_state], the simulated
    output latch of every pin, the driver calls and the console. *)
Record relay_world := {
  s_relay_state : bool;
  gpio_out : Z -> Z;
  gpio_calls : list gpio_call;
  console : list log_line
}.

Definition relay_log (l : log_line) (w : relay_world) : relay_world :=
  {| s_relay_state := s_relay_state w;
     gpio_out := gpio_out w;
     gpio_calls := gpio_calls w;
     console := console w ++ [l] |}.

Definition store_relay_state (on : bool) (w : relay_world) : relay_world :=
  {| s_relay_state := on;
     gpio_out := gpio_out w;
     gpio_calls := gpio_calls w;
     console := console w |}.

(** [gpio_config]: the driver's answer [ret] is an input of the model. *)
Definition gpio_config (cfg : gpio_config_t) (ret : esp_err_t)
    (w : relay_world) : esp_err_t * relay_world :=
  (ret,
   {| s_relay_state := s_relay_state w;
      gpio_out := gpio_out w;
      gpio_calls := gpio_calls w ++ [GPIO_config cfg ret];
      console := console w |}).

(** [gpio_set_level]: latches [level] on [gpio_num]; the firmware ignores
    the driver's return value. *)
Definition gpio_set_level (gpio_num level : Z) (w : relay_world) : relay_world :=
  {| s_relay_state := s_relay_state w;
     gpio_out := fun p => if p =? gpio_num then level else gpio_out w p;
     gpio_calls := gpio_calls w ++ [GPIO_set_level gpio_num level];
     console := console w |}.

(** [relay_init]; [gpio_config_ret] is what [gpio_config] answers. *)
Definition relay_init (gpio_config_ret : esp_err_t) (w : relay_world)
    : esp_err_t * relay_world :=
  let w := relay_log (RLOG_initializing RELAY_GPIO_PIN) w in
  let io_conf := {| pin_bit_mask := Z.shiftl 1 RELAY_GPIO_PIN;
                    mode := GPIO_MODE_OUTPUT;
                    pull_up_en := false;
                    pull_down_en := false;
                    intr_enabled := false |} in
  let '(ret, w) := gpio_config io_conf gpio_config_ret w in
  if negb (ret =? ESP_OK) then
    (ret, relay_log (RLOG_config_failed RELAY_GPIO_PIN ret) w)
  else
    let w := store_relay_state false w in
    let level := if c_true RELAY_ACTIVE_LEVEL then 0 else 1 in
    let w := gpio_set_level RELAY_GPIO_PIN level w in
    let w := relay_log RLOG_initialized w in
    (ESP_OK, w).

Definition relay_set (on : bool) (w : relay_world) : relay_world :=
  let level :=
    if c_true RELAY_ACTIVE_LEVEL
    then (if on then 1 else 0)
    else (if on then 0 else 1) in
  let w := gpio_set_level RELAY_GPIO_PIN level w in
  let w := store_relay_state on w in
  relay_log (RLOG_set on RELAY_GPIO_PIN level) w.

Definition relay_toggle (w : relay_world) : relay_world :=
  let w := relay_set (negb (s_relay_state w)) w in
  relay_log (RLOG_toggled (s_relay_state w)) w.

Definition relay_get_state (w : relay_world) : bool := s_relay_state w.

(** A caller's view of the mutating relay API, for call sequences. *)
Inductive relay_call :=
| CALL_set (on : bool)
| CALL_toggle.

Definition relay_do (w : relay_world) (c : relay_call) : relay_world :=
  match c with
  | CALL_set on => relay_set on w
  | CALL_toggle => relay_toggle w
  end.

Definition relay_run (calls : list relay_call) (w : relay_world) : relay_world :=
  fold_left relay_do calls w.

(** What a reader of the header expects [relay_get_state] to answer after
    [calls], starting from the stored value [s]. *)
Definition expected_state (s : bool) (calls : list relay_call) : bool :=
  fold_left (fun s c => match c with CALL_set on => on | CALL_toggle => negb s end)
            calls s.

(** The parts of the relay world an observer of the actuator can see:
    stored state, output latches and driver calls (not the console). *)
Definition relay_same_actuator (a b : relay_world) : Prop :=
  s_relay_state a = s_relay_state b
  /\ (forall p, gpio_out a p = gpio_out b p)
  /\ gpio_calls a = gpio_calls b.

(* ================================================================== *)
(** * zigbee_handler.h / zigbee_handler.c *)
(* ================================================================== *)

Definition ZIGBEE_ENDPOINT : Z := 10.

(** Enumerators of the Zigbee SDK headers used by the handlers
    ([esp_zb_app_signal_type_t], [esp_zb_bdb_commissioning_mode_t],
    ZCL status, cluster, attribute and type ids, core action ids). *)
Definition ESP_ZB_ZDO_SIGNAL_SKIP_STARTUP : Z := 0x01.
Definition ESP_ZB_BDB_SIGNAL_DEVICE_FIRST_START : Z := 0x05.
Definition ESP_ZB_BDB_SIGNAL_DEVICE_REBOOT : Z := 0x06.
Definition ESP_ZB_BDB_SIGNAL_STEERING : Z := 0x0a.
Definition ESP_ZB_BDB_MODE_NETWORK_STEERING : Z := 0x02.
Definition ESP_ZB_ZCL_STATUS_SUCCESS : Z := 0x00.
Definition ESP_ZB_ZCL_CLUSTER_ID_ON_OFF : Z := 0x0006.
Definition ESP_ZB_ZCL_ATTR_ON_OFF_ON_OFF_ID : Z := 0x0000.
Definition ESP_ZB_ZCL_ATTR_TYPE_BOOL : Z := 0x10.
Definition ESP_ZB_CORE_SET_ATTR_VALUE_CB_ID : Z := 0x0000.

(** [esp_zb_app_signal_t]: [app_signal] is the word [*p_app_signal]. *)
Record esp_zb_app_signal_t := {
  app_signal : Z;
  esp_err_status : esp_err_t
}.

(** [esp_zb_zcl_set_attr_value_message_t], with the fields the handler
    reads.  [data_value] is the [void *value]: [None] is the null pointer,
    [Some b] points at a C [bool] holding [b]. *)
Record esp_zb_zcl_attribute_data_t := {
  data_type : Z;
  data_size : Z;
  data_value : option bool
}.

Record esp_zb_zcl_attribute_t := {
  attr_id : Z;
  attr_data : esp_zb_zcl_attribute_data_t
}.

Record esp_zb_device_cb_common_info_t := {
  info_status : Z;
  info_dst_endpoint : Z;
  info_cluster : Z
}.

Record esp_zb_zcl_set_attr_value_message_t := {
  msg_info : esp_zb_device_cb_common_info_t;
  msg_attribute : esp_zb_zcl_attribute_t
}.

(** Functions handed to the stack scheduler as [esp_zb_callback_t]. *)
Inductive esp_zb_callback_t :=
| FN_esp_zb_bdb_start_top_level_commissioning.

(** What the Zigbee module does to its surroundings, in program order. *)
Inductive zb_event :=
| ZB_log (l : log_line)
| ZB_bdb_start_top_level_commissioning (mode_mask : Z)
| ZB_scheduler_alarm (cb : esp_zb_callback_t) (param : Z) (time_ms : N)
| ZB_on_off_callback (on : bool).

(** An alarm waiting in the stack scheduler. *)
Record zb_alarm := {
  al_due : N;
  al_cb : esp_zb_callback_t;
  al_param : Z
}.

(** The scheduler keeps its queue ordered by due time; alarms due at the
    same instant stay in arming order. *)
Fixpoint alarm_enqueue (a : zb_alarm) (q : list zb_alarm) : list zb_alarm :=
  match q with
  | [] => [a]
  | b :: q' =>
      if (al_due a <? al_due b)%N then a :: q else b :: alarm_enqueue a q'
  end.

Section Zigbee.

(** [App] is the state of the rest of the firmware, on which a
    registered [zigbee_on_off_callback_t] acts. *)
Context {App : Type}.

Definition zigbee_on_off_callback_t : Type := bool -> App -> App.

(** The Zigbee module's world: the static [s_on_off_callback] ([None] is
    NULL), the application state behind the callback, the stack's clock
    (ms) and alarm queue, and the events so far. *)
Record zb_world := {
  s_on_off_callback : option zigbee_on_off_callback_t;
  zb_app : App;
  zb_now : N;
  zb_alarms : list zb_alarm;
  zb_trace : list zb_event
}.

Definition zb_emit (e : zb_event) (w : zb_world) : zb_world :=
  {| s_on_off_callback := s_on_off_callback w;
     zb_app := zb_app w;
     zb_now := zb_now w;
     zb_alarms := zb_alarms w;
     zb_trace := zb_trace w ++ [e] |}.

Definition zb_log (l : log_line) (w : zb_world) : zb_world :=
  zb_emit (ZB_log l) w.

(** Stack entry points called by the handlers. *)
Definition esp_zb_bdb_start_top_level_commissioning (mode_mask : Z)
    (w : zb_world) : zb_world :=
  zb_emit (ZB_bdb_start_top_level_commissioning mode_mask) w.

Definition esp_zb_scheduler_alarm (cb : esp_zb_callback_t) (param : Z)
    (time_ms : N) (w : zb_world) : zb_world :=
  let a := {| al_due := (zb_now w + time_ms)%N; al_cb := cb; al_param := param |} in
  {| s_on_off_callback := s_on_off_callback w;
     zb_app := zb_app w;
     zb_now := zb_now w;
     zb_alarms := alarm_enqueue a (zb_alarms w);
     zb_trace := zb_trace w ++ [ZB_scheduler_alarm cb param time_ms] |}.

(** The scheduler running one due alarm. *)
Definition zb_fire (w : zb_world) (a : zb_alarm) : zb_world :=
  match al_cb a with
  | FN_esp_zb_bdb_start_top_level_commissioning =>
      esp_zb_bdb_start_top_level_commissioning (al_param a) w
  end.

Definition alarm_due (t : N) (a : zb_alarm) : bool := (al_due a <=? t)%N.

(** [ms] milliseconds pass in the stack main loop: every alarm that has
    come due runs, in queue order, and leaves the queue. *)
Definition zb_elapse (ms : N) (w : zb_world) : zb_world :=
  let t := (zb_now w + ms)%N in
  let due := filter (alarm_due t) (zb_alarms w) in
  let rest := filter (fun a => negb (alarm_due t a)) (zb_alarms w) in
  fold_left zb_fire due
    {| s_on_off_callback := s_on_off_callback w;
       zb_app := zb_app w;
       zb_now := t;
       zb_alarms := rest;
       zb_trace := zb_trace w |}.

(** [zb_zdo_signal_handler]; [factory_new] is what
    [esp_zb_bdb_is_factory_new()] answers during this delivery. *)
Definition zb_zdo_signal_handler (factory_new : bool)
    (signal_struct : esp_zb_app_signal_t) (w : zb_world) : zb_world :=
  let err_status := esp_err_status signal_struct in
  let sig_type := app_signal signal_struct in
  if sig_type =? ESP_ZB_ZDO_SIGNAL_SKIP_STARTUP then
    let w := zb_log ZLOG_stack_initialized w in
    esp_zb_bdb_start_top_level_commissioning ESP_ZB_BDB_MODE_NETWORK_STEERING w
  else if (sig_type =? ESP_ZB_BDB_SIGNAL_DEVICE_FIRST_START)
          || (sig_type =? ESP_ZB_BDB_SIGNAL_DEVICE_REBOOT) then
    if err_status =? ESP_OK then
      let w := zb_log (ZLOG_started_up
                         (sig_type =? ESP_ZB_BDB_SIGNAL_DEVICE_FIRST_START)) w in
      if factory_new then
        let w := zb_log ZLOG_start_steering w in
        esp_zb_bdb_start_top_level_commissioning ESP_ZB_BDB_MODE_NETWORK_STEERING w
      else
        zb_log ZLOG_rejoining w
    else
      let w := zb_log (ZLOG_startup_failed err_status) w in
      esp_zb_scheduler_alarm FN_esp_zb_bdb_start_top_level_commissioning
        ESP_ZB_BDB_MODE_NETWORK_STEERING 1000%N w
  else if sig_type =? ESP_ZB_BDB_SIGNAL_STEERING then
    if err_status =? ESP_OK then
      let w := zb_log ZLOG_joined_network w in
      let w := zb_log ZLOG_extended_pan_id w in
      let w := zb_log ZLOG_pan_id w in
      let w := zb_log ZLOG_channel w in
      zb_log ZLOG_short_address w
    else
      let w := zb_log (ZLOG_steering_failed err_status) w in
      esp_zb_scheduler_alarm FN_esp_zb_bdb_start_top_level_commissioning
        ESP_ZB_BDB_MODE_NETWORK_STEERING 2000%N w
  else
    zb_log (ZLOG_zdo_signal sig_type err_status) w.

(** Calling through [s_on_off_callback]. *)
Definition zb_invoke (cb : zigbee_on_off_callback_t) (on : bool)
    (w : zb_world) : zb_world :=
  {| s_on_off_callback := s_on_off_callback w;
     zb_app := cb on (zb_app w);
     zb_now := zb_now w;
     zb_alarms := zb_alarms w;
     zb_trace := zb_trace w ++ [ZB_on_off_callback on] |}.

(** [zb_attribute_handler]; [message = None] is the null pointer. *)
Definition zb_attribute_handler
    (message : option esp_zb_zcl_set_attr_value_message_t) (w : zb_world)
    : esp_err_t * zb_world :=
  let ret := ESP_OK in
  match message with
  | None => (ESP_FAIL, zb_log ZLOG_empty_message w)
  | Some m =>
      let info := msg_info m in
      let attribute := msg_attribute m in
      if negb (info_status info =? ESP_ZB_ZCL_STATUS_SUCCESS) then
        (ESP_ERR_INVALID_ARG, zb_log (ZLOG_error_status (info_status info)) w)
      else
        let w := zb_log (ZLOG_received_message
                           (info_dst_endpoint info) (info_cluster info)
                           (attr_id attribute)
                           (data_size (attr_data attribute))) w in
        let w :=
          if info_dst_endpoint info =? ZIGBEE_ENDPOINT then
            if info_cluster info =? ESP_ZB_ZCL_CLUSTER_ID_ON_OFF then
              if (attr_id attribute =? ESP_ZB_ZCL_ATTR_ON_OFF_ON_OFF_ID)
                 && (data_type (attr_data attribute) =? ESP_ZB_ZCL_ATTR_TYPE_BOOL)
              then
                let on_off_value :=
                  match data_value (attr_data attribute) with
                  | Some b => b
                  | None => false
                  end in
                let w := zb_log (ZLOG_on_off_command on_off_value) w in
                match s_on_off_callback w with
                | Some cb => zb_invoke cb on_off_value w
                | None => w
                end
              else w
            else w
          else w in
        (ret, w)
  end.

(** [zb_action_handler] *)
Definition zb_action_handler (callback_id : Z)
    (message : option esp_zb_zcl_set_attr_value_message_t) (w : zb_world)
    : esp_err_t * zb_world :=
  if callback_id =? ESP_ZB_CORE_SET_ATTR_VALUE_CB_ID then
    zb_attribute_handler message w
  else
    (ESP_OK, zb_log (ZLOG_action callback_id) w).

(** [zigbee_handler_register_on_off_callback] *)
Definition zigbee_handler_register_on_off_callback
    (callback : option zigbee_on_off_callback_t) (w : zb_world) : zb_world :=
  zb_log ZLOG_callback_registered
    {| s_on_off_callback := callback;
       zb_app := zb_app w;
       zb_now := zb_now w;
       zb_alarms := zb_alarms w;
       zb_trace := zb_trace w |}.

(** What the stack main loop can hand to the module: a ZDO signal, a core
    action, or the passing of time. *)
Inductive zb_input :=
| IN_signal (factory_new : bool) (signal_struct : esp_zb_app_signal_t)
| IN_action (callback_id : Z)
            (message : option esp_zb_zcl_set_attr_value_message_t)
| IN_elapse (ms : N).

Definition zb_step (w : zb_world) (i : zb_input) : zb_world :=
  match i with
  | IN_signal factory_new s => zb_zdo_signal_handler factory_new s w
  | IN_action id m => snd (zb_action_handler id m w)
  | IN_elapse ms => zb_elapse ms w
  end.

Definition zb_run (ins : list zb_input) (w : zb_world) : zb_world :=
  fold_left zb_step ins w.

End Zigbee.

Arguments zb_world : clear implicits.
Arguments zigbee_on_off_callback_t : clear implicits.

(** ** Observations on the event trace *)

(** The handler's two "device is on the network" branches announce
    themselves with these lines and nothing else does. *)
Definition is_joined_event (e : zb_event) : bool :=
  match e with
  | ZB_log ZLOG_joined_network => true
  | ZB_log ZLOG_rejoining => true
  | _ => false
  end.

Definition joined_reached (tr : list zb_event) : bool :=
  existsb is_joined_event tr.

(** A steering request reaching the stack ([begin_steering]). *)
Definition is_begin_steering (e : zb_event) : bool :=
  match e with
  | ZB_bdb_start_top_level_commissioning m => m =? ESP_ZB_BDB_MODE_NETWORK_STEERING
  | _ => false
  end.

Definition begin_steering_count (tr : list zb_event) : nat :=
  length (filter is_begin_steering tr).

Definition is_alarm_event (e : zb_event) : bool :=
  match e with
  | ZB_scheduler_alarm _ _ _ => true
  | _ => false
  end.

(** Number of retry alarms armed so far. *)
Definition retries_armed (tr : list zb_event) : nat :=
  length (filter is_alarm_event tr).

Definition is_callback_event (e : zb_event) : bool :=
  match e with
  | ZB_on_off_callback _ => true
  | _ => false
  end.

(** The invocations of the registered callback, oldest first. *)
Definition callback_invocations (tr : list zb_event) : list zb_event :=
  filter is_callback_event tr.

(** Classification of deliveries, by the fields the handler switches on. *)
Definition is_startup_signal (s : esp_zb_app_signal_t) : bool :=
  (app_signal s =? ESP_ZB_BDB_SIGNAL_DEVICE_FIRST_START)
  || (app_signal s =? ESP_ZB_BDB_SIGNAL_DEVICE_REBOOT).

Definition is_steering_signal (s : esp_zb_app_signal_t) : bool :=
  app_signal s =? ESP_ZB_BDB_SIGNAL_STEERING.

Definition status_ok (s : esp_zb_app_signal_t) : bool :=
  esp_err_status s =? ESP_OK.

(** Steering completed successfully, or a successful start-up or reboot of
    a device that is not factory-new. *)
Definition joins_network (factory_new : bool) (s : esp_zb_app_signal_t) : bool :=
  (is_steering_signal s && status_ok s)
  || (is_startup_signal s && status_ok s && negb factory_new).

Definition input_joins (i : zb_input) : bool :=
  match i with
  | IN_signal factory_new s => joins_network factory_new s
  | _ => false
  end.

Definition is_steering_failure (i : zb_input) : bool :=
  match i with
  | IN_signal _ s => is_steering_signal s && negb (status_ok s)
  | _ => false
  end.

Definition is_elapse (i : zb_input) : bool :=
  match i with
  | IN_elapse _ => true
  | _ => false
  end.

(** Does a message address the one configured attribute? *)
Definition addresses_on_off (m : esp_zb_zcl_set_attr_value_message_t) : bool :=
  (info_dst_endpoint (msg_info m) =? ZIGBEE_ENDPOINT)
  && (info_cluster (msg_info m) =? ESP_ZB_ZCL_CLUSTER_ID_ON_OFF)
  && (attr_id (msg_attribute m) =? ESP_ZB_ZCL_ATTR_ON_OFF_ON_OFF_ID).

(** The handler's reading of the value pointer. *)
Definition coerce_on_off (v : option bool) : bool :=
  match v with
  | Some b => b
  | None => false
  end.

(* ================================================================== *)
(** * app_main.c / Heizungsbeluefter.ino *)
(* ================================================================== *)

(** [on_zigbee_on_off_command]: the callback the firmware registers. *)
Definition on_zigbee_on_off_command (on : bool) (w : relay_world) : relay_world :=
  let w := relay_log (MLOG_command_received on) w in
  relay_set on w.

(** The firmware's world: the Zigbee module over the relay module. *)
Definition firmware_world : Type := zb_world relay_world.

(** Sample worlds and messages used to exercise the definitions. *)
Definition relay_cold : relay_world :=
  {| s_relay_state := false;
     gpio_out := fun _ => 0;
     gpio_calls := [];
     console := [] |}.

Definition relay_energised : relay_world :=
  {| s_relay_state := true;
     gpio_out := fun p => if p =? RELAY_GPIO_PIN then 1 else 0;
     gpio_calls := [GPIO_set_level RELAY_GPIO_PIN 1];
     console := [] |}.

Definition firmware_wired (r : relay_world) : firmware_world :=
  {| s_on_off_callback := Some on_zigbee_on_off_command;
     zb_app := r;
     zb_now := 0%N;
     zb_alarms := [];
     zb_trace := [] |}.

Definition on_off_message (status endpoint cluster attr type : Z)
    (value : option bool) : esp_zb_zcl_set_attr_value_message_t :=
  {| msg_info := {| info_status := status;
                    info_dst_endpoint := endpoint;
                    info_cluster := cluster |};
     msg_attribute := {| attr_id := attr;
                         attr_data := {| data_type := type;
                                         data_size := 1;
                                         data_value := value |} |} |}.

Definition zdo_signal (sig_type : Z) (status : esp_err_t) : esp_zb_app_signal_t :=
  {| app_signal := sig_type; esp_err_status := status |}.

(** ** The scheduler seen from outside *)

(** The event an alarm produces when the scheduler runs it. *)
Definition fire_event (a : zb_alarm) : zb_event :=
  match al_cb a with
  | FN_esp_zb_bdb_start_top_level_commissioning =>
      ZB_bdb_start_top_level_commissioning (al_param a)
  end.

(** Alarms of [q] that have come due at time [t] and issue a steering
    request when run. *)
Definition steering_due (t : N) (q : list zb_alarm) : nat :=
  length (filter (fun a => alarm_due t a && is_begin_steering (fire_event a)) q).

(** The alarm both failure branches arm, [time_ms] after [now]. *)
Definition steering_retry (now time_ms : N) : zb_alarm :=
  {| al_due := (now + time_ms)%N;
     al_cb := FN_esp_zb_bdb_start_top_level_commissioning;
     al_param := ESP_ZB_BDB_MODE_NETWORK_STEERING |}.

(** Total time that passes during a sequence of inputs. *)
Definition elapsed (ins : list zb_input) : N :=
  fold_right (fun i acc => match i with IN_elapse ms => (ms + acc)%N | _ => acc end)
             0%N ins.

(** Two worlds that differ only in their history and in the alarms [extra]
    that the first has pending on top of the second's. *)
Definition zb_sim {App : Type} (extra : list zb_alarm) (w1 w2 : zb_world App) : Prop :=
  s_on_off_callback w1 = s_on_off_callback w2
  /\ zb_app w1 = zb_app w2
  /\ zb_now w1 = zb_now w2
  /\ Permutation (zb_alarms w1) (extra ++ zb_alarms w2).

(* ================================================================== *)
(** * The rest of zigbee_handler.c and the entry points *)
(* ================================================================== *)

(** ** Reading a whole run of the main loop *)

(** The boolean a message makes the attribute handler forward, if any:
    the message is there, its status is success, it addresses the
    configured attribute and its data type is boolean. *)
Definition forwards (message : option esp_zb_zcl_set_attr_value_message_t)
    : option bool :=
  match message with
  | None => None
  | Some m =>
      if (info_status (msg_info m) =? ESP_ZB_ZCL_STATUS_SUCCESS)
         && addresses_on_off m
         && (data_type (attr_data (msg_attribute m)) =? ESP_ZB_ZCL_ATTR_TYPE_BOOL)
      then Some (coerce_on_off (data_value (attr_data (msg_attribute m))))
      else None
  end.

(** The on/off command an input of the main loop carries, if any. *)
Definition command_of (i : zb_input) : option bool :=
  match i with
  | IN_action id message =>
      if id =? ESP_ZB_CORE_SET_ATTR_VALUE_CB_ID then forwards message else None
  | _ => None
  end.

Definition is_command (i : zb_input) : bool :=
  match command_of i with Some _ => true | None => false end.

Definition is_action (i : zb_input) : bool :=
  match i with IN_action _ _ => true | _ => false end.

(** The most recent command of a run, or [init] when there is none. *)
Definition last_command (init : bool) (ins : list zb_input) : bool :=
  fold_left (fun s i => match command_of i with Some b => b | None => s end)
            ins init.

(** Deliveries on which the signal handler asks for steering at once:
    stack ready, or a successful start-up of a factory-new device. *)
Definition steers_at_once (factory_new : bool) (s : esp_zb_app_signal_t) : bool :=
  (app_signal s =? ESP_ZB_ZDO_SIGNAL_SKIP_STARTUP)
  || (is_startup_signal s && status_ok s && factory_new).

(** Deliveries on which it arms a retry: a failed start-up or a failed
    steering attempt; and the delay it then uses. *)
Definition arms_retry (s : esp_zb_app_signal_t) : bool :=
  (is_startup_signal s || is_steering_signal s) && negb (status_ok s).

Definition retry_delay (s : esp_zb_app_signal_t) : N :=
  if is_startup_signal s then 1000%N else 2000%N.

Definition input_steers_at_once (i : zb_input) : bool :=
  match i with IN_signal factory_new s => steers_at_once factory_new s | _ => false end.

Definition input_arms_retry (i : zb_input) : bool :=
  match i with IN_signal _ s => arms_retry s | _ => false end.

(** Pending alarms that will issue a steering request when they run. *)
Definition pending_steering (q : list zb_alarm) : nat :=
  length (filter (fun a => is_begin_steering (fire_event a)) q).

(** The relay pin carries the level of the stored state. *)
Definition relay_consistent (w : relay_world) : Prop :=
  gpio_out w RELAY_GPIO_PIN = if s_relay_state w then 1 else 0.

Definition is_level_write (c : gpio_call) : bool :=
  match c with GPIO_set_level _ _ => true | GPIO_config _ _ => false end.

(** Every driver call in the list concerns the relay pin only. *)
Definition only_relay_pin (calls : list gpio_call) : Prop :=
  Forall (fun c => match c with
                   | GPIO_set_level pin _ => pin = RELAY_GPIO_PIN
                   | GPIO_config cfg _ => pin_bit_mask cfg = Z.shiftl 1 RELAY_GPIO_PIN
                   end) calls.

(** ** zigbee_handler_set_on_off_attribute *)

Definition ESP_ZB_ZCL_CLUSTER_SERVER_ROLE : Z := 0x01.

(** What the outbound write does, in program order; [status] is the
    stack's answer to [esp_zb_zcl_set_attribute_val]. *)
Inductive push_event :=
| PUSH_log_setting (on : bool)
| PUSH_set_attribute_val (endpoint cluster_id cluster_role attr_id : Z)
                         (value : bool) (check : bool) (status : Z)
| PUSH_log_failed (status : Z).

Definition zigbee_handler_set_on_off_attribute (stack_status : Z) (on : bool)
    (tr : list push_event) : esp_err_t * list push_event :=
  let tr := tr ++ [PUSH_log_setting on] in
  let status := stack_status in
  let tr := tr ++ [PUSH_set_attribute_val ZIGBEE_ENDPOINT
                     ESP_ZB_ZCL_CLUSTER_ID_ON_OFF ESP_ZB_ZCL_CLUSTER_SERVER_ROLE
                     ESP_ZB_ZCL_ATTR_ON_OFF_ON_OFF_ID on false status] in
  if status =? ESP_ZB_ZCL_STATUS_SUCCESS then (ESP_OK, tr)
  else (ESP_FAIL, tr ++ [PUSH_log_failed status]).

Definition is_push_write (e : push_event) : bool :=
  match e with PUSH_set_attribute_val _ _ _ _ _ _ _ => true | _ => false end.

(** A success-status boolean attribute message with the address and the
    value of an outbound write. *)
Definition message_like_write (e : push_event)
    : option esp_zb_zcl_set_attr_value_message_t :=
  match e with
  | PUSH_set_attribute_val endpoint cluster _ attr value _ _ =>
      Some (on_off_message ESP_ZB_ZCL_STATUS_SUCCESS endpoint cluster attr
              ESP_ZB_ZCL_ATTR_TYPE_BOOL (Some value))
  | _ => None
  end.

(** ** create_on_off_light_ep, zigbee_handler_init, zigbee_handler_start *)

Definition ESP_ZB_AF_HA_PROFILE_ID : Z := 0x0104.
Definition ESP_ZB_HA_ON_OFF_LIGHT_DEVICE_ID : Z := 0x0100.

(** ZCL character strings as the header spells them: the length octet
    written as an escape, then the text. *)
Definition MANUFACTURER_NAME : Z * String.string := (0x09, "ESPRESSIF"%string).
Definition MODEL_IDENTIFIER : Z * String.string := (0x10, "ESP32C6_FAN_SWITCH"%string).

(** The clusters of the endpoint with the configuration fields the source
    sets (the basic cluster's ZCL version is the SDK default); all are
    added in the server role. *)
Inductive cluster_desc :=
| CLUSTER_basic (power_source : Z) (manufacturer model : Z * String.string)
| CLUSTER_identify (identify_time : Z)
| CLUSTER_groups (groups_name_support_id : Z)
| CLUSTER_scenes (scenes_count current_scene current_group : Z)
                 (scene_valid : bool) (name_support : Z)
| CLUSTER_on_off (on_off : bool).

Record esp_zb_endpoint_config_t := {
  endpoint : Z;
  app_profile_id : Z;
  app_device_id : Z;
  app_device_version : Z
}.

Record ep_desc := {
  ep_clusters : list cluster_desc;
  ep_config : esp_zb_endpoint_config_t
}.

Definition create_on_off_light_ep : ep_desc :=
  {| ep_clusters :=
       [CLUSTER_basic 0x01 MANUFACTURER_NAME MODEL_IDENTIFIER;
        CLUSTER_identify 0;
        CLUSTER_groups 0;
        CLUSTER_scenes 0 0 0 false 0;
        CLUSTER_on_off false];
     ep_config := {| endpoint := ZIGBEE_ENDPOINT;
                     app_profile_id := ESP_ZB_AF_HA_PROFILE_ID;
                     app_device_id := ESP_ZB_HA_ON_OFF_LIGHT_DEVICE_ID;
                     app_device_version := 0 |} |}.

(** The initial value of the on/off attribute an endpoint advertises. *)
Definition advertised_on_off (ep : ep_desc) : option bool :=
  match filter (fun c => match c with CLUSTER_on_off _ => true | _ => false end)
               (ep_clusters ep) with
  | CLUSTER_on_off b :: _ => Some b
  | _ => None
  end.

(** ** app_main.c and Heizungsbeluefter.ino *)

Definition ESP_ERR_NVS_NO_FREE_PAGES : esp_err_t := 0x110d.
Definition ESP_ERR_NVS_NEW_VERSION_FOUND : esp_err_t := 0x1110.

(** Console lines of the entry points and of the Zigbee start-up code; a
    block of consecutive lines is one constructor. *)
Inductive boot_log :=
| BLOG_banner
| BLOG_nvs_initializing
| BLOG_nvs_needs_erase
| BLOG_nvs_ok
| BLOG_relay_initializing
| BLOG_relay_failed (ret : esp_err_t)
| BLOG_relay_ok
| BLOG_zigbee_initializing
| BLOG_zigbee_failed (ret : esp_err_t)
| BLOG_summary
| BLOG_loop_exited
| BLOG_zb_init_begin
| BLOG_zb_init_done
| BLOG_zb_starting.

(** What start-up does to the SDK and to the other modules, in order. *)
Inductive boot_event :=
| BOOT_log (l : boot_log)
| BOOT_serial_begin (baud : Z)
| BOOT_delay (ms : Z)
| BOOT_nvs_flash_init (ret : esp_err_t)
| BOOT_nvs_flash_erase (ret : esp_err_t)
| BOOT_relay_init (ret : esp_err_t)
| BOOT_esp_zb_platform_config (ret : esp_err_t)
| BOOT_esp_zb_init (install_code_policy : bool) (keep_alive : Z)
| BOOT_esp_zb_device_register (ep : ep_desc)
| BOOT_esp_zb_core_action_handler_register
| BOOT_esp_zb_app_signal_handler_register
| BOOT_esp_zb_set_primary_network_channel_set
| BOOT_register_on_off_callback
| BOOT_esp_zb_start (autostart : bool) (ret : esp_err_t)
| BOOT_esp_zb_stack_main_loop
| BOOT_abort (code : esp_err_t).

Definition is_zigbee_call (e : boot_event) : bool :=
  match e with
  | BOOT_esp_zb_platform_config _ | BOOT_esp_zb_init _ _
  | BOOT_esp_zb_device_register _ | BOOT_esp_zb_core_action_handler_register
  | BOOT_esp_zb_app_signal_handler_register
  | BOOT_esp_zb_set_primary_network_channel_set
  | BOOT_register_on_off_callback | BOOT_esp_zb_start _ _
  | BOOT_esp_zb_stack_main_loop => true
  | _ => false
  end.

Definition is_nvs_erase (e : boot_event) : bool :=
  match e with BOOT_nvs_flash_erase _ => true | _ => false end.

Definition is_relay_init_event (e : boot_event) : bool :=
  match e with BOOT_relay_init _ => true | _ => false end.

(** The answers of the SDK during one start-up. *)
Record boot_env := {
  env_nvs_flash_init_1 : esp_err_t;
  env_nvs_flash_erase : esp_err_t;
  env_nvs_flash_init_2 : esp_err_t;
  env_gpio_config : esp_err_t;
  env_esp_zb_platform_config : esp_err_t;
  env_esp_zb_start : esp_err_t
}.

(** The firmware's world during start-up, with the start-up history. *)
Record boot_world := {
  boot_fw : firmware_world;
  boot_trace : list boot_event
}.

(** How an entry point ends: [abort()] from a failed [ESP_ERROR_CHECK],
    a return, or inside [esp_zb_stack_main_loop], which does not return. *)
Inductive boot_outcome :=
| BOOT_aborted (code : esp_err_t)
| BOOT_returned
| BOOT_in_main_loop.

Inductive boot_step (A : Type) :=
| Continue (a : A)
| Stop (o : boot_outcome).

Arguments Continue {A} a.
Arguments Stop {A} o.

(** Start-up code: threads the world, and may end the entry point. *)
Definition boot (A : Type) : Type := boot_world -> boot_step A * boot_world.

Definition boot_ret {A : Type} (a : A) : boot A := fun w => (Continue a, w).

Definition boot_bind {A B : Type} (c : boot A) (k : A -> boot B) : boot B :=
  fun w =>
    match c w with
    | (Continue a, w') => k a w'
    | (Stop o, w') => (Stop o, w')
    end.

Notation "x <- c ;; k" := (boot_bind c (fun x => k))
  (at level 61, c at next level, right associativity).
Notation "c ;; k" := (boot_bind c (fun _ => k))
  (at level 61, right associativity).

Definition boot_emit (e : boot_event) : boot unit :=
  fun w => (Continue tt, {| boot_fw := boot_fw w; boot_trace := boot_trace w ++ [e] |}).

Definition boot_stop {A : Type} (o : boot_outcome) : boot A :=
  fun w => (Stop o, w).

(** [ESP_ERROR_CHECK(x)]: abort unless [x] is [ESP_OK]. *)
Definition ESP_ERROR_CHECK (x : esp_err_t) : boot unit :=
  if x =? ESP_OK then boot_ret tt
  else boot_emit (BOOT_abort x) ;; boot_stop (BOOT_aborted x).

Definition nvs_flash_init (ret : esp_err_t) : boot esp_err_t :=
  boot_emit (BOOT_nvs_flash_init ret) ;; boot_ret ret.

Definition nvs_flash_erase (ret : esp_err_t) : boot esp_err_t :=
  boot_emit (BOOT_nvs_flash_erase ret) ;; boot_ret ret.

(** [relay_init] on the relay module behind the firmware world. *)
Definition boot_relay_init (gpio_config_ret : esp_err_t) : boot esp_err_t :=
  fun w =>
    let '(ret, r) := relay_init gpio_config_ret (zb_app (boot_fw w)) in
    (Continue ret,
     {| boot_fw := {| s_on_off_callback := s_on_off_callback (boot_fw w);
                      zb_app := r;
                      zb_now := zb_now (boot_fw w);
                      zb_alarms := zb_alarms (boot_fw w);
                      zb_trace := zb_trace (boot_fw w) |};
        boot_trace := boot_trace w ++ [BOOT_relay_init ret] |}).

Definition boot_register_on_off_callback
    (callback : option (zigbee_on_off_callback_t relay_world)) : boot unit :=
  fun w =>
    (Continue tt,
     {| boot_fw := zigbee_handler_register_on_off_callback callback (boot_fw w);
        boot_trace := boot_trace w ++ [BOOT_register_on_off_callback] |}).

Definition zigbee_handler_init (platform_config_ret : esp_err_t) : boot esp_err_t :=
  boot_emit (BOOT_log BLOG_zb_init_begin) ;;
  boot_emit (BOOT_esp_zb_platform_config platform_config_ret) ;;
  ESP_ERROR_CHECK platform_config_ret ;;
  boot_emit (BOOT_esp_zb_init false 3000) ;;
  boot_emit (BOOT_esp_zb_device_register create_on_off_light_ep) ;;
  boot_emit BOOT_esp_zb_core_action_handler_register ;;
  boot_emit BOOT_esp_zb_app_signal_handler_register ;;
  boot_emit BOOT_esp_zb_set_primary_network_channel_set ;;
  boot_emit (BOOT_log BLOG_zb_init_done) ;;
  boot_ret ESP_OK.

Definition zigbee_handler_start (start_ret : esp_err_t) : boot unit :=
  boot_emit (BOOT_log BLOG_zb_starting) ;;
  boot_emit (BOOT_esp_zb_start false start_ret) ;;
  ESP_ERROR_CHECK start_ret ;;
  boot_emit BOOT_esp_zb_stack_main_loop ;;
  boot_stop BOOT_in_main_loop.

(** The five steps shared by [app_main] and [setup]. *)
Definition boot_sequence (env : boot_env) : boot unit :=
  boot_emit (BOOT_log BLOG_banner) ;;
  boot_emit (BOOT_log BLOG_nvs_initializing) ;;
  ret <- nvs_flash_init (env_nvs_flash_init_1 env) ;;
  ret <- (if (ret =? ESP_ERR_NVS_NO_FREE_PAGES)
             || (ret =? ESP_ERR_NVS_NEW_VERSION_FOUND)
          then
            boot_emit (BOOT_log BLOG_nvs_needs_erase) ;;
            e <- nvs_flash_erase (env_nvs_flash_erase env) ;;
            ESP_ERROR_CHECK e ;;
            nvs_flash_init (env_nvs_flash_init_2 env)
          else boot_ret ret) ;;
  ESP_ERROR_CHECK ret ;;
  boot_emit (BOOT_log BLOG_nvs_ok) ;;
  boot_emit (BOOT_log BLOG_relay_initializing) ;;
  ret <- boot_relay_init (env_gpio_config env) ;;
  (if negb (ret =? ESP_OK) then
     boot_emit (BOOT_log (BLOG_relay_failed ret)) ;; boot_stop BOOT_returned
   else boot_ret tt) ;;
  boot_emit (BOOT_log BLOG_relay_ok) ;;
  boot_emit (BOOT_log BLOG_zigbee_initializing) ;;
  ret <- zigbee_handler_init (env_esp_zb_platform_config env) ;;
  (if negb (ret =? ESP_OK) then
     boot_emit (BOOT_log (BLOG_zigbee_failed ret)) ;; boot_stop BOOT_returned
   else boot_ret tt) ;;
  boot_register_on_off_callback (Some on_zigbee_on_off_command) ;;
  boot_emit (BOOT_log BLOG_summary) ;;
  zigbee_handler_start (env_esp_zb_start env).

(** [app_main] (ESP-IDF) *)
Definition app_main (env : boot_env) : boot unit :=
  boot_sequence env ;;
  boot_emit (BOOT_log BLOG_loop_exited).


(** How an entry point ended, falling off its end being a return. *)
Definition outcome_of (r : boot_step unit * boot_world) : boot_outcome :=
  match fst r with
  | Continue _ => BOOT_returned
  | Stop o => o
  end.

(** NVS comes up: at once, or after an erase asked for by the first
    answer. *)
Definition nvs_comes_up (env : boot_env) : bool :=
  if (env_nvs_flash_init_1 env =? ESP_ERR_NVS_NO_FREE_PAGES)
     || (env_nvs_flash_init_1 env =? ESP_ERR_NVS_NEW_VERSION_FOUND)
  then (env_nvs_flash_erase env =? ESP_OK) && (env_nvs_flash_init_2 env =? ESP_OK)
  else env_nvs_flash_init_1 env =? ESP_OK.

(** *** Start-up read as a table of the SDK's answers *)

Definition asks_erase (env : boot_env) : bool :=
  (env_nvs_flash_init_1 env =? ESP_ERR_NVS_NO_FREE_PAGES)
  || (env_nvs_flash_init_1 env =? ESP_ERR_NVS_NEW_VERSION_FOUND).

(** The code NVS start-up ends with. *)
Definition nvs_code (env : boot_env) : esp_err_t :=
  if asks_erase env
  then (if env_nvs_flash_erase env =? ESP_OK
        then env_nvs_flash_init_2 env else env_nvs_flash_erase env)
  else env_nvs_flash_init_1 env.

Definition expected_outcome (env : boot_env) : boot_outcome :=
  if negb (nvs_comes_up env) then BOOT_aborted (nvs_code env)
  else if negb (env_gpio_config env =? ESP_OK) then BOOT_returned
  else if negb (env_esp_zb_platform_config env =? ESP_OK)
       then BOOT_aborted (env_esp_zb_platform_config env)
  else if negb (env_esp_zb_start env =? ESP_OK)
       then BOOT_aborted (env_esp_zb_start env)
  else BOOT_in_main_loop.

(** The firmware world with [relay_init] run on its relay. *)
Definition relay_initialised (gpio_config_ret : esp_err_t) (fw : firmware_world)
    : firmware_world :=
  {| s_on_off_callback := s_on_off_callback fw;
     zb_app := snd (relay_init gpio_config_ret (zb_app fw));
     zb_now := zb_now fw;
     zb_alarms := zb_alarms fw;
     zb_trace := zb_trace fw |}.

Definition expected_fw (env : boot_env) (fw : firmware_world) : firmware_world :=
  if nvs_comes_up env then
    if (env_gpio_config env =? ESP_OK) && (env_esp_zb_platform_config env =? ESP_OK)
    then zigbee_handler_register_on_off_callback (Some on_zigbee_on_off_command)
           (relay_initialised (env_gpio_config env) fw)
    else relay_initialised (env_gpio_config env) fw
  else fw.

Definition expected_zigbee_calls (env : boot_env) : list boot_event :=
  if nvs_comes_up env && (env_gpio_config env =? ESP_OK) then
    BOOT_esp_zb_platform_config (env_esp_zb_platform_config env)
    :: (if env_esp_zb_platform_config env =? ESP_OK then
          [BOOT_esp_zb_init false 3000;
           BOOT_esp_zb_device_register create_on_off_light_ep;
           BOOT_esp_zb_core_action_handler_register;
           BOOT_esp_zb_app_signal_handler_register;
           BOOT_esp_zb_set_primary_network_channel_set;
           BOOT_register_on_off_callback;
           BOOT_esp_zb_start false (env_esp_zb_start env)]
          ++ (if env_esp_zb_start env =? ESP_OK
              then [BOOT_esp_zb_stack_main_loop] else [])
        else [])
  else [].


Definition is_loop_exited (e : boot_event) : bool :=
  match e with BOOT_log BLOG_loop_exited => true | _ => false end.

(** Sample start-up worlds and answers. *)
Definition power_on (r : relay_world) : boot_world :=
  {| boot_fw := {| s_on_off_callback := None;
                   zb_app := r;
                   zb_now := 0%N;
                   zb_alarms := [];
                   zb_trace := [] |};
     boot_trace := [] |}.

Definition all_ok : boot_env :=
  {| env_nvs_flash_init_1 := ESP_OK;
     env_nvs_flash_erase := ESP_OK;
     env_nvs_flash_init_2 := ESP_OK;
     env_gpio_config := ESP_OK;
     env_esp_zb_platform_config := ESP_OK;
     env_esp_zb_start := ESP_OK |}.

Definition gpio_refused : boot_env :=
  {| env_nvs_flash_init_1 := ESP_OK;
     env_nvs_flash_erase := ESP_OK;
     env_nvs_flash_init_2 := ESP_OK;
     env_gpio_config := ESP_ERR_INVALID_ARG;
     env_esp_zb_platform_config := ESP_OK;
     env_esp_zb_start := ESP_OK |}.

Definition turn (on : bool) : zb_input :=
  IN_action ESP_ZB_CORE_SET_ATTR_VALUE_CB_ID
    (Some (on_off_message ESP_ZB_ZCL_STATUS_SUCCESS ZIGBEE_ENDPOINT
             ESP_ZB_ZCL_CLUSTER_ID_ON_OFF ESP_ZB_ZCL_ATTR_ON_OFF_ON_OFF_ID
             ESP_ZB_ZCL_ATTR_TYPE_BOOL (Some on))).

(* ================================================================== *)
(** * Properties of the relay module *)
(* ================================================================== *)

Section RelayFacts.

Implicit Types (w : relay_world) (on : bool) (ret : esp_err_t).

Lemma relay_set_state on w : s_relay_state (relay_set on w) = on.
Proof. reflexivity. Qed.

Lemma relay_set_level on w :
  gpio_out (relay_set on w) RELAY_GPIO_PIN = if on then 1 else 0.
Proof. destruct on; reflexivity. Qed.

Lemma relay_toggle_state w :
  s_relay_state (relay_toggle w) = negb (s_relay_state w).
Proof. reflexivity. Qed.

Lemma relay_toggle_level w :
  gpio_out (relay_toggle w) RELAY_GPIO_PIN = if s_relay_state w then 0 else 1.
Proof. unfold relay_toggle. destruct (s_relay_state w); reflexivity. Qed.

Lemma relay_do_state w c :
  s_relay_state (relay_do w c) =
  match c with CALL_set on => on | CALL_toggle => negb (s_relay_state w) end.
Proof. destruct c; reflexivity. Qed.

Lemma relay_run_snoc calls c w :
  relay_run (calls ++ [c]) w = relay_do (relay_run calls w) c.
Proof. unfold relay_run. now rewrite fold_left_app. Qed.

(** The stored state after any call sequence is the one the header's
    reading predicts. *)
Lemma relay_run_expected calls :
  forall w, s_relay_state (relay_run calls w) = expected_state (s_relay_state w) calls.
Proof.
  induction calls as [|c calls IH]; intros w; [reflexivity|].
  cbn [relay_run expected_state fold_left] in *.
  unfold relay_run, expected_state in IH. rewrite IH.
  now rewrite relay_do_state.
Qed.

(** After at least one call the output latch of the relay pin agrees with
    the stored state (active-high). *)
Lemma relay_do_level w c :
  gpio_out (relay_do w c) RELAY_GPIO_PIN =
  if s_relay_state (relay_do w c) then 1 else 0.
Proof.
  destruct c as [on|]; cbn [relay_do].
  - now rewrite relay_set_level, relay_set_state.
  - rewrite relay_toggle_level, relay_toggle_state.
    now destruct (s_relay_state w).
Qed.

Lemma relay_init_returns ret w : fst (relay_init ret w) = ret.
Proof.
  unfold relay_init, gpio_config.
  destruct (ret =? ESP_OK) eqn:E; cbn; [|reflexivity].
  symmetry. now apply Z.eqb_eq.
Qed.

End RelayFacts.

(** C1 (as amended).  Whatever the stored state, the output latches and the
    driver history were before, a [relay_init] that succeeds -- which it
    does exactly when [gpio_config] answers [ESP_OK] -- leaves
    [s_relay_state] false, so that [relay_get_state] answers false, and has
    driven the relay pin to the OFF level (0 for the active-high build, the
    level [relay_set false] writes) as its last driver call.  When
    [gpio_config] answers an error, [relay_init] returns that error and
    leaves the stored state and every output latch as they were. *)
Theorem relay_init_failsafe_off :
  forall (ret : esp_err_t) (w : relay_world),
    (fst (relay_init ret w) = ESP_OK <-> ret = ESP_OK)
    /\ (fst (relay_init ret w) = ESP_OK ->
        let w' := snd (relay_init ret w) in
        s_relay_state w' = false
        /\ relay_get_state w' = false
        /\ gpio_out w' RELAY_GPIO_PIN = 0
        /\ gpio_out w' RELAY_GPIO_PIN = gpio_out (relay_set false w) RELAY_GPIO_PIN
        /\ last (gpio_calls w') (GPIO_set_level 0 0) = GPIO_set_level RELAY_GPIO_PIN 0)
    /\ (fst (relay_init ret w) <> ESP_OK ->
        let w' := snd (relay_init ret w) in
        fst (relay_init ret w) = ret
        /\ s_relay_state w' = s_relay_state w
        /\ (forall p, gpio_out w' p = gpio_out w p)).
Proof.
  intros ret w. rewrite relay_init_returns.
  split; [tauto|]. split.
  - intros ->. cbn. repeat split.
    now rewrite last_last.
  - intros Hne. unfold relay_init, gpio_config.
    destruct (ret =? ESP_OK) eqn:E.
    + apply Z.eqb_eq in E. contradiction.
    + cbn. repeat split.
Qed.

(** The amended C1 at work: a relay left ON with its pin high is forced OFF
    by a successful [relay_init]. *)
Lemma relay_init_failsafe_off_witness :
  fst (relay_init ESP_OK relay_energised) = ESP_OK
  /\ relay_get_state (snd (relay_init ESP_OK relay_energised)) = false
  /\ gpio_out (snd (relay_init ESP_OK relay_energised)) RELAY_GPIO_PIN = 0.
Proof.
  pose proof (relay_init_failsafe_off ESP_OK relay_energised) as [_ [Hok _]].
  split; [reflexivity|].
  destruct (Hok eq_refl) as (_ & Hget & Hlvl & _).
  split; [exact Hget | exact Hlvl].
Defined.

(** C1 as stated fails: with the relay stored ON and its pin high, a
    [relay_init] whose [gpio_config] is refused returns early, and
    [relay_get_state] still answers true with the pin still high. *)
Lemma relay_init_refused_config_keeps_on :
  fst (relay_init ESP_ERR_INVALID_ARG relay_energised) = ESP_ERR_INVALID_ARG
  /\ relay_get_state (snd (relay_init ESP_ERR_INVALID_ARG relay_energised)) = true
  /\ gpio_out (snd (relay_init ESP_ERR_INVALID_ARG relay_energised)) RELAY_GPIO_PIN = 1
  /\ ~ (forall ret w, s_relay_state (snd (relay_init ret w)) = false).
Proof.
  repeat split.
  intros H. specialize (H ESP_ERR_INVALID_ARG relay_energised).
  cbn in H. discriminate H.
Qed.

(** C6.  After [relay_init] (whatever it returned) and any sequence of
    [relay_set] / [relay_toggle] calls, [relay_get_state] answers what the
    most recent call established: the argument of a final [relay_set], or
    the negation of the state before a final [relay_toggle]; over the whole
    sequence it is the value the header's reading predicts, and the relay
    pin carries the matching level. *)
Theorem relay_get_state_reflects_last_call :
  forall (ret : esp_err_t) (w0 : relay_world) (calls : list relay_call)
         (c : relay_call),
    let w := snd (relay_init ret w0) in
    relay_get_state (relay_run (calls ++ [c]) w) =
      match c with
      | CALL_set on => on
      | CALL_toggle => negb (relay_get_state (relay_run calls w))
      end
    /\ relay_get_state (relay_run (calls ++ [c]) w) =
         expected_state (relay_get_state w) (calls ++ [c])
    /\ gpio_out (relay_run (calls ++ [c]) w) RELAY_GPIO_PIN =
         if relay_get_state (relay_run (calls ++ [c]) w) then 1 else 0.
Proof.
  intros ret w0 calls c w. unfold relay_get_state.
  rewrite relay_run_snoc. repeat split.
  - apply relay_do_state.
  - rewrite <- relay_run_snoc. apply relay_run_expected.
  - apply relay_do_level.
Qed.

(** C7.  [relay_toggle] is [relay_set (!relay_get_state ())] followed only
    by a console line: both leave the same stored state, the same output
    latches and the same driver calls.  Toggling twice restores the stored
    state and the relay pin's level to those of the state toggled from,
    whether that was true or false. *)
Theorem relay_toggle_is_set_of_negation :
  forall w : relay_world,
    relay_toggle w =
      relay_log (RLOG_toggled (negb (relay_get_state w)))
        (relay_set (negb (relay_get_state w)) w)
    /\ relay_same_actuator (relay_toggle w)
         (relay_set (negb (relay_get_state w)) w)
    /\ relay_get_state (relay_toggle (relay_toggle w)) = relay_get_state w
    /\ gpio_out (relay_toggle (relay_toggle w)) RELAY_GPIO_PIN =
         if relay_get_state w then 1 else 0.
Proof.
  intros w. unfold relay_get_state. repeat split.
  - cbn. apply negb_involutive.
  - rewrite relay_toggle_level, relay_toggle_state.
    now destruct (s_relay_state w).
Qed.

(* ================================================================== *)
(** * Properties of the attribute handler *)
(* ================================================================== *)

Lemma callback_invocations_app tr tr' :
  callback_invocations (tr ++ tr') =
  callback_invocations tr ++ callback_invocations tr'.
Proof. apply filter_app. Qed.

Lemma callback_invocations_log tr l :
  callback_invocations (tr ++ [ZB_log l]) = callback_invocations tr.
Proof. rewrite callback_invocations_app. cbn. apply app_nil_r. Qed.

(** Splitting [addresses_on_off] into the three comparisons of the code. *)
Lemma addresses_on_off_true m :
  addresses_on_off m = true <->
  info_dst_endpoint (msg_info m) = ZIGBEE_ENDPOINT
  /\ info_cluster (msg_info m) = ESP_ZB_ZCL_CLUSTER_ID_ON_OFF
  /\ attr_id (msg_attribute m) = ESP_ZB_ZCL_ATTR_ON_OFF_ON_OFF_ID.
Proof.
  unfold addresses_on_off.
  rewrite !andb_true_iff, !Z.eqb_eq. tauto.
Qed.

Lemma addresses_on_off_false m :
  addresses_on_off m = false <->
  info_dst_endpoint (msg_info m) <> ZIGBEE_ENDPOINT
  \/ info_cluster (msg_info m) <> ESP_ZB_ZCL_CLUSTER_ID_ON_OFF
  \/ attr_id (msg_attribute m) <> ESP_ZB_ZCL_ATTR_ON_OFF_ON_OFF_ID.
Proof.
  unfold addresses_on_off.
  rewrite !andb_false_iff, !Z.eqb_neq. tauto.
Qed.

(** A success-status message that the innermost test of the handler turns
    away is only logged. *)
Lemma zb_attribute_handler_ignored {App : Type} (w : zb_world App) m :
  info_status (msg_info m) = ESP_ZB_ZCL_STATUS_SUCCESS ->
  addresses_on_off m
    && (data_type (attr_data (msg_attribute m)) =? ESP_ZB_ZCL_ATTR_TYPE_BOOL) = false ->
  zb_attribute_handler (Some m) w =
  (ESP_OK,
   zb_log (ZLOG_received_message
             (info_dst_endpoint (msg_info m)) (info_cluster (msg_info m))
             (attr_id (msg_attribute m))
             (data_size (attr_data (msg_attribute m)))) w).
Proof.
  intros Hst Hno. unfold zb_attribute_handler, addresses_on_off in *.
  rewrite Hst. cbn [negb Z.eqb ESP_ZB_ZCL_STATUS_SUCCESS].
  destruct (info_dst_endpoint (msg_info m) =? ZIGBEE_ENDPOINT); [|reflexivity].
  destruct (info_cluster (msg_info m) =? ESP_ZB_ZCL_CLUSTER_ID_ON_OFF); [|reflexivity].
  cbn [andb] in Hno. now rewrite Hno.
Qed.

(** C2.  A message whose status is not success is discarded: the handler
    returns [ESP_ERR_INVALID_ARG], the only effect is the error line on
    the log, the registered callback is not invoked and the application
    state behind it is untouched. *)
Theorem zb_attribute_handler_fails_closed :
  forall (App : Type) (w : zb_world App)
         (m : esp_zb_zcl_set_attr_value_message_t),
    info_status (msg_info m) <> ESP_ZB_ZCL_STATUS_SUCCESS ->
    let r := zb_attribute_handler (Some m) w in
    fst r = ESP_ERR_INVALID_ARG
    /\ fst r <> ESP_OK
    /\ snd r = zb_log (ZLOG_error_status (info_status (msg_info m))) w
    /\ zb_app (snd r) = zb_app w
    /\ callback_invocations (zb_trace (snd r)) = callback_invocations (zb_trace w).
Proof.
  intros App w m Hst r. subst r. unfold zb_attribute_handler.
  apply Z.eqb_neq in Hst. rewrite Hst. cbn [negb fst snd].
  repeat split.
  - discriminate.
  - apply callback_invocations_log.
Qed.

(** C2 on the wired firmware: a failed-status "turn on" leaves the relay
    off. *)
Lemma zb_attribute_handler_fails_closed_witness :
  let m := on_off_message 0x01 ZIGBEE_ENDPOINT ESP_ZB_ZCL_CLUSTER_ID_ON_OFF
             ESP_ZB_ZCL_ATTR_ON_OFF_ON_OFF_ID ESP_ZB_ZCL_ATTR_TYPE_BOOL (Some true) in
  let r := zb_attribute_handler (Some m) (firmware_wired relay_cold) in
  fst r = ESP_ERR_INVALID_ARG
  /\ relay_get_state (zb_app (snd r)) = false
  /\ callback_invocations (zb_trace (snd r)) = [].
Proof.
  intros m r.
  assert (Hst : info_status (msg_info m) <> ESP_ZB_ZCL_STATUS_SUCCESS)
    by (cbn; discriminate).
  destruct (zb_attribute_handler_fails_closed relay_world
              (firmware_wired relay_cold) m Hst) as (Hr & _ & _ & Happ & Hcb).
  subst r. split; [exact Hr|]. split.
  - rewrite Happ. reflexivity.
  - rewrite Hcb. reflexivity.
Defined.

(** C8.  A success-status message whose endpoint, cluster or attribute id
    is not the configured one (endpoint 10, On/Off cluster, on/off
    attribute) is a no-op: the handler returns [ESP_OK], only the
    "received" line is logged, the callback is not invoked and the
    application state is untouched. *)
Theorem zb_attribute_handler_ignores_other_attributes :
  forall (App : Type) (w : zb_world App)
         (m : esp_zb_zcl_set_attr_value_message_t),
    info_status (msg_info m) = ESP_ZB_ZCL_STATUS_SUCCESS ->
    info_dst_endpoint (msg_info m) <> ZIGBEE_ENDPOINT
    \/ info_cluster (msg_info m) <> ESP_ZB_ZCL_CLUSTER_ID_ON_OFF
    \/ attr_id (msg_attribute m) <> ESP_ZB_ZCL_ATTR_ON_OFF_ON_OFF_ID ->
    let r := zb_attribute_handler (Some m) w in
    fst r = ESP_OK
    /\ zb_app (snd r) = zb_app w
    /\ s_on_off_callback (snd r) = s_on_off_callback w
    /\ callback_invocations (zb_trace (snd r)) = callback_invocations (zb_trace w).
Proof.
  intros App w m Hst Hother r. subst r.
  apply addresses_on_off_false in Hother.
  rewrite zb_attribute_handler_ignored by (rewrite ?Hother; auto).
  cbn [fst snd]. repeat split.
  apply callback_invocations_log.
Qed.

(** C8 on the wired firmware: "turn on" addressed to endpoint 11. *)
Lemma zb_attribute_handler_ignores_other_attributes_witness :
  let m := on_off_message ESP_ZB_ZCL_STATUS_SUCCESS 11 ESP_ZB_ZCL_CLUSTER_ID_ON_OFF
             ESP_ZB_ZCL_ATTR_ON_OFF_ON_OFF_ID ESP_ZB_ZCL_ATTR_TYPE_BOOL (Some true) in
  let r := zb_attribute_handler (Some m) (firmware_wired relay_cold) in
  fst r = ESP_OK
  /\ relay_get_state (zb_app (snd r)) = false
  /\ callback_invocations (zb_trace (snd r)) = [].
Proof.
  intros m r.
  assert (Hst : info_status (msg_info m) = ESP_ZB_ZCL_STATUS_SUCCESS)
    by reflexivity.
  assert (Hep : info_dst_endpoint (msg_info m) <> ZIGBEE_ENDPOINT
                \/ info_cluster (msg_info m) <> ESP_ZB_ZCL_CLUSTER_ID_ON_OFF
                \/ attr_id (msg_attribute m) <> ESP_ZB_ZCL_ATTR_ON_OFF_ON_OFF_ID)
    by (left; cbn; discriminate).
  destruct (zb_attribute_handler_ignores_other_attributes relay_world
              (firmware_wired relay_cold) m Hst Hep) as (Hr & Happ & _ & Hcb).
  subst r. split; [exact Hr|]. split.
  - rewrite Happ. reflexivity.
  - rewrite Hcb. reflexivity.
Defined.

(** C10.  A success-status message that addresses the configured endpoint,
    cluster and attribute but whose data type is not boolean is silently
    ignored: [ESP_OK] is returned, the callback is not invoked and the
    application state is untouched. *)
Theorem zb_attribute_handler_ignores_non_bool :
  forall (App : Type) (w : zb_world App)
         (m : esp_zb_zcl_set_attr_value_message_t),
    info_status (msg_info m) = ESP_ZB_ZCL_STATUS_SUCCESS ->
    info_dst_endpoint (msg_info m) = ZIGBEE_ENDPOINT ->
    info_cluster (msg_info m) = ESP_ZB_ZCL_CLUSTER_ID_ON_OFF ->
    attr_id (msg_attribute m) = ESP_ZB_ZCL_ATTR_ON_OFF_ON_OFF_ID ->
    data_type (attr_data (msg_attribute m)) <> ESP_ZB_ZCL_ATTR_TYPE_BOOL ->
    let r := zb_attribute_handler (Some m) w in
    fst r = ESP_OK
    /\ zb_app (snd r) = zb_app w
    /\ s_on_off_callback (snd r) = s_on_off_callback w
    /\ callback_invocations (zb_trace (snd r)) = callback_invocations (zb_trace w).
Proof.
  intros App w m Hst Hep Hcl Hid Hty r. subst r.
  apply Z.eqb_neq in Hty.
  rewrite zb_attribute_handler_ignored by (rewrite ?Hty; auto using andb_false_r).
  cbn [fst snd]. repeat split.
  apply callback_invocations_log.
Qed.

(** C10 on the wired firmware: an 8-bit unsigned 1 written to the on/off
    attribute does not switch the relay. *)
Lemma zb_attribute_handler_ignores_non_bool_witness :
  let m := on_off_message ESP_ZB_ZCL_STATUS_SUCCESS ZIGBEE_ENDPOINT
             ESP_ZB_ZCL_CLUSTER_ID_ON_OFF ESP_ZB_ZCL_ATTR_ON_OFF_ON_OFF_ID
             0x20 (Some true) in
  let r := zb_attribute_handler (Some m) (firmware_wired relay_cold) in
  fst r = ESP_OK
  /\ relay_get_state (zb_app (snd r)) = false
  /\ callback_invocations (zb_trace (snd r)) = [].
Proof.
  intros m r.
  assert (Hty : data_type (attr_data (msg_attribute m)) <> ESP_ZB_ZCL_ATTR_TYPE_BOOL)
    by (cbn; discriminate).
  destruct (zb_attribute_handler_ignores_non_bool relay_world
              (firmware_wired relay_cold) m eq_refl eq_refl eq_refl eq_refl Hty)
    as (Hr & Happ & _ & Hcb).
  subst r. split; [exact Hr|]. split.
  - rewrite Happ. reflexivity.
  - rewrite Hcb. reflexivity.
Defined.

(** C9 (as amended).  A success-status message that addresses the
    configured endpoint, cluster and attribute and carries a value of
    boolean type is forwarded: the value pointer is read as a boolean, a
    null pointer reading as false, and the registered callback is invoked
    exactly once with that boolean; the handler returns [ESP_OK]. *)
Theorem zb_attribute_handler_forwards_bool :
  forall (App : Type) (w : zb_world App)
         (m : esp_zb_zcl_set_attr_value_message_t)
         (cb : zigbee_on_off_callback_t App),
    info_status (msg_info m) = ESP_ZB_ZCL_STATUS_SUCCESS ->
    addresses_on_off m = true ->
    data_type (attr_data (msg_attribute m)) = ESP_ZB_ZCL_ATTR_TYPE_BOOL ->
    s_on_off_callback w = Some cb ->
    let r := zb_attribute_handler (Some m) w in
    let on := coerce_on_off (data_value (attr_data (msg_attribute m))) in
    fst r = ESP_OK
    /\ zb_app (snd r) = cb on (zb_app w)
    /\ callback_invocations (zb_trace (snd r)) =
         callback_invocations (zb_trace w) ++ [ZB_on_off_callback on]
    /\ (data_value (attr_data (msg_attribute m)) = None -> on = false).
Proof.
  intros App w m cb Hst Haddr Hty Hcb r on. subst r on.
  apply addresses_on_off_true in Haddr. destruct Haddr as (Hep & Hcl & Hid).
  unfold zb_attribute_handler.
  rewrite Hst, Hep, Hcl, Hid, Hty.
  cbn -[coerce_on_off]. rewrite Hcb. cbn -[coerce_on_off].
  repeat split.
  - rewrite !callback_invocations_app. cbn.
    now rewrite !app_nil_r.
  - now intros ->.
Qed.

(** C9 on the wired firmware: the "turn on" message switches the relay on
    with one write of the ON level, and a message with a null value
    pointer switches it off. *)
Lemma zb_attribute_handler_forwards_bool_witness :
  let m v := on_off_message ESP_ZB_ZCL_STATUS_SUCCESS ZIGBEE_ENDPOINT
               ESP_ZB_ZCL_CLUSTER_ID_ON_OFF ESP_ZB_ZCL_ATTR_ON_OFF_ON_OFF_ID
               ESP_ZB_ZCL_ATTR_TYPE_BOOL v in
  let r := zb_attribute_handler (Some (m (Some true))) (firmware_wired relay_cold) in
  let r0 := zb_attribute_handler (Some (m None)) (firmware_wired relay_energised) in
  (fst r = ESP_OK
   /\ relay_get_state (zb_app (snd r)) = true
   /\ gpio_calls (zb_app (snd r)) = [GPIO_set_level RELAY_GPIO_PIN 1]
   /\ callback_invocations (zb_trace (snd r)) = [ZB_on_off_callback true])
  /\ relay_get_state (zb_app (snd r0)) = false.
Proof.
  intros m r r0.
  destruct (zb_attribute_handler_forwards_bool relay_world
              (firmware_wired relay_cold) (m (Some true))
              on_zigbee_on_off_command eq_refl eq_refl eq_refl eq_refl)
    as (Hr & Happ & Hcb & _).
  destruct (zb_attribute_handler_forwards_bool relay_world
              (firmware_wired relay_energised) (m None)
              on_zigbee_on_off_command eq_refl eq_refl eq_refl eq_refl)
    as (_ & Happ0 & _ & _).
  subst r r0. split.
  - split; [exact Hr|]. rewrite Happ, Hcb. repeat split.
  - rewrite Happ0. reflexivity.
Defined.

(** C9 as stated fails: "turn on" addressed to endpoint 10, On/Off cluster,
    on/off attribute with success status, but typed as an 8-bit unsigned
    integer, never reaches the registered callback; the relay stays off. *)
Lemma zb_attribute_handler_drops_matching_u8 :
  let m := on_off_message ESP_ZB_ZCL_STATUS_SUCCESS ZIGBEE_ENDPOINT
             ESP_ZB_ZCL_CLUSTER_ID_ON_OFF ESP_ZB_ZCL_ATTR_ON_OFF_ON_OFF_ID
             0x20 (Some true) in
  let r := zb_attribute_handler (Some m) (firmware_wired relay_cold) in
  info_status (msg_info m) = ESP_ZB_ZCL_STATUS_SUCCESS
  /\ addresses_on_off m = true
  /\ s_on_off_callback (firmware_wired relay_cold) = Some on_zigbee_on_off_command
  /\ fst r = ESP_OK
  /\ callback_invocations (zb_trace (snd r)) = []
  /\ relay_get_state (zb_app (snd r)) = false
  /\ zb_app (snd r) <> on_zigbee_on_off_command true relay_cold.
Proof.
  cbn. repeat split. discriminate.
Qed.

(* ================================================================== *)
(** * Properties of the ZDO signal handler and the retry alarms *)
(* ================================================================== *)

Section ZdoFacts.

Context {App : Type}.
Implicit Types (w : zb_world App) (s : esp_zb_app_signal_t) (fn : bool).

(** *** Counting on traces *)

Lemma begin_steering_count_app tr tr' :
  begin_steering_count (tr ++ tr') =
  (begin_steering_count tr + begin_steering_count tr')%nat.
Proof. unfold begin_steering_count. now rewrite filter_app, length_app. Qed.

Lemma retries_armed_app tr tr' :
  retries_armed (tr ++ tr') = (retries_armed tr + retries_armed tr')%nat.
Proof. unfold retries_armed. now rewrite filter_app, length_app. Qed.

Lemma joined_reached_app tr tr' :
  joined_reached (tr ++ tr') = joined_reached tr || joined_reached tr'.
Proof. apply existsb_app. Qed.

(** *** The two failure branches, in closed form *)

Lemma zdo_steering_failure fn s w :
  is_steering_signal s = true -> status_ok s = false ->
  zb_zdo_signal_handler fn s w =
  esp_zb_scheduler_alarm FN_esp_zb_bdb_start_top_level_commissioning
    ESP_ZB_BDB_MODE_NETWORK_STEERING 2000%N
    (zb_log (ZLOG_steering_failed (esp_err_status s)) w).
Proof.
  unfold is_steering_signal, status_ok, zb_zdo_signal_handler.
  intros Hsig Hst. apply Z.eqb_eq in Hsig. rewrite Hsig, Hst. reflexivity.
Qed.

Lemma zdo_startup_failure fn s w :
  is_startup_signal s = true -> status_ok s = false ->
  zb_zdo_signal_handler fn s w =
  esp_zb_scheduler_alarm FN_esp_zb_bdb_start_top_level_commissioning
    ESP_ZB_BDB_MODE_NETWORK_STEERING 1000%N
    (zb_log (ZLOG_startup_failed (esp_err_status s)) w).
Proof.
  unfold is_startup_signal, status_ok, zb_zdo_signal_handler.
  intros Hsig Hst. rewrite Hsig, Hst.
  apply orb_true_iff in Hsig.
  destruct Hsig as [H|H]; apply Z.eqb_eq in H; rewrite H; reflexivity.
Qed.

(** *** What one delivery appends to the trace *)

(** Closing one branch of the case analysis below with the events it
    appends (and, for a failure branch, the delay of the alarm). *)
Local Ltac shape_common evs :=
  exists evs;
  split; [reflexivity|];
  split; [intros w; cbn; rewrite <- ?app_assoc; repeat split|].

Local Ltac shape_quiet evs :=
  shape_common evs; left; split; [reflexivity | intros w; reflexivity].

Local Ltac shape_alarm evs d :=
  shape_common evs; right; exists d;
  split; [reflexivity|]; split; [reflexivity | intros w; reflexivity].

(** Every branch of the signal handler leaves callback, application and
    clock alone and appends events that do not depend on the world; it
    either leaves the alarm queue alone or arms one steering retry. *)
Lemma zdo_handler_shape fn s :
  exists evs,
    joined_reached evs = joins_network fn s
    /\ (forall w,
          let w' := zb_zdo_signal_handler fn s w in
          s_on_off_callback w' = s_on_off_callback w
          /\ zb_app w' = zb_app w
          /\ zb_now w' = zb_now w
          /\ zb_trace w' = zb_trace w ++ evs)
    /\ ((retries_armed evs = 0%nat
         /\ forall w, zb_alarms (zb_zdo_signal_handler fn s w) = zb_alarms w)
        \/ (exists d,
              retries_armed evs = 1%nat
              /\ begin_steering_count evs = 0%nat
              /\ forall w,
                   zb_alarms (zb_zdo_signal_handler fn s w) =
                   alarm_enqueue (steering_retry (zb_now w) d) (zb_alarms w))).
Proof.
  destruct s as [sig st].
  unfold zb_zdo_signal_handler, joins_network, is_steering_signal,
    is_startup_signal, status_ok.
  cbn [app_signal esp_err_status].
  destruct (sig =? ESP_ZB_ZDO_SIGNAL_SKIP_STARTUP) eqn:E1.
  { apply Z.eqb_eq in E1. subst sig.
    shape_quiet [ZB_log ZLOG_stack_initialized;
                 ZB_bdb_start_top_level_commissioning
                   ESP_ZB_BDB_MODE_NETWORK_STEERING]. }
  destruct ((sig =? ESP_ZB_BDB_SIGNAL_DEVICE_FIRST_START)
            || (sig =? ESP_ZB_BDB_SIGNAL_DEVICE_REBOOT)) eqn:E2.
  { assert (E3 : (sig =? ESP_ZB_BDB_SIGNAL_STEERING) = false).
    { apply orb_true_iff in E2.
      destruct E2 as [H|H]; apply Z.eqb_eq in H; subst sig; reflexivity. }
    rewrite E3. cbn [andb orb].
    destruct (st =? ESP_OK) eqn:E4; [destruct fn|].
    - shape_quiet [ZB_log (ZLOG_started_up
                             (sig =? ESP_ZB_BDB_SIGNAL_DEVICE_FIRST_START));
                   ZB_log ZLOG_start_steering;
                   ZB_bdb_start_top_level_commissioning
                     ESP_ZB_BDB_MODE_NETWORK_STEERING].
    - shape_quiet [ZB_log (ZLOG_started_up
                             (sig =? ESP_ZB_BDB_SIGNAL_DEVICE_FIRST_START));
                   ZB_log ZLOG_rejoining].
    - shape_alarm [ZB_log (ZLOG_startup_failed st);
                   ZB_scheduler_alarm FN_esp_zb_bdb_start_top_level_commissioning
                     ESP_ZB_BDB_MODE_NETWORK_STEERING 1000%N] 1000%N. }
  cbn [andb orb].
  destruct (sig =? ESP_ZB_BDB_SIGNAL_STEERING) eqn:E3.
  { destruct (st =? ESP_OK) eqn:E4.
    - shape_quiet [ZB_log ZLOG_joined_network; ZB_log ZLOG_extended_pan_id;
                   ZB_log ZLOG_pan_id; ZB_log ZLOG_channel;
                   ZB_log ZLOG_short_address].
    - shape_alarm [ZB_log (ZLOG_steering_failed st);
                   ZB_scheduler_alarm FN_esp_zb_bdb_start_top_level_commissioning
                     ESP_ZB_BDB_MODE_NETWORK_STEERING 2000%N] 2000%N. }
  shape_quiet [ZB_log (ZLOG_zdo_signal sig st)].
Qed.

Local Ltac action_logs_only :=
  cbn; do 3 (split; [reflexivity|]);
  eexists; split; [reflexivity|];
  do 3 (split; [reflexivity|]);
  let w2 := fresh "w2" in let Hcb := fresh "Hcb" in let Happ := fresh "Happ" in
  intros w2 Hcb Happ; split; [exact Happ | reflexivity].

(** A core action only logs and, at most, calls through the registered
    callback: what it appends and what it does to the application depend
    on the callback slot and the application state alone. *)
Lemma zb_action_handler_shape id m w :
  let w' := snd (zb_action_handler id m w) in
  s_on_off_callback w' = s_on_off_callback w
  /\ zb_now w' = zb_now w
  /\ zb_alarms w' = zb_alarms w
  /\ exists evs,
       zb_trace w' = zb_trace w ++ evs
       /\ joined_reached evs = false
       /\ begin_steering_count evs = 0%nat
       /\ retries_armed evs = 0%nat
       /\ forall w2,
            s_on_off_callback w2 = s_on_off_callback w ->
            zb_app w2 = zb_app w ->
            zb_app (snd (zb_action_handler id m w2)) = zb_app w'
            /\ zb_trace (snd (zb_action_handler id m w2)) = zb_trace w2 ++ evs.
Proof.
  unfold zb_action_handler, zb_attribute_handler.
  destruct (id =? ESP_ZB_CORE_SET_ATTR_VALUE_CB_ID); [|action_logs_only].
  destruct m as [m|]; [|action_logs_only].
  destruct (info_status (msg_info m) =? ESP_ZB_ZCL_STATUS_SUCCESS);
    [|action_logs_only].
  cbn [negb].
  destruct (info_dst_endpoint (msg_info m) =? ZIGBEE_ENDPOINT);
    [|action_logs_only].
  destruct (info_cluster (msg_info m) =? ESP_ZB_ZCL_CLUSTER_ID_ON_OFF);
    [|action_logs_only].
  destruct ((attr_id (msg_attribute m) =? ESP_ZB_ZCL_ATTR_ON_OFF_ON_OFF_ID)
            && (data_type (attr_data (msg_attribute m)) =? ESP_ZB_ZCL_ATTR_TYPE_BOOL));
    [|action_logs_only].
  cbn. destruct (s_on_off_callback w) as [cb|] eqn:Ecb; cbn.
  - split; [exact Ecb|]. do 2 (split; [reflexivity|]).
    eexists. split; [rewrite <- !app_assoc; reflexivity|].
    do 3 (split; [reflexivity|]).
    intros w2 Hcb Happ. rewrite Hcb. cbn. rewrite Happ.
    split; [reflexivity | now rewrite <- !app_assoc].
  - split; [exact Ecb|]. do 2 (split; [reflexivity|]).
    eexists. split; [rewrite <- !app_assoc; reflexivity|].
    do 3 (split; [reflexivity|]).
    intros w2 Hcb Happ. rewrite Hcb. cbn.
    split; [exact Happ | now rewrite <- !app_assoc].
Qed.

(** *** Time passing *)

Lemma fold_zb_fire q :
  forall w,
    let w' := fold_left zb_fire q w in
    s_on_off_callback w' = s_on_off_callback w
    /\ zb_app w' = zb_app w
    /\ zb_now w' = zb_now w
    /\ zb_alarms w' = zb_alarms w
    /\ zb_trace w' = zb_trace w ++ map fire_event q.
Proof.
  induction q as [|a q IH]; intros w; cbn.
  - repeat split. now rewrite app_nil_r.
  - destruct (IH (zb_fire w a)) as (H1 & H2 & H3 & H4 & H5).
    rewrite H1, H2, H3, H4, H5.
    unfold zb_fire, fire_event. destruct (al_cb a); cbn.
    repeat split. now rewrite <- app_assoc.
Qed.

Lemma zb_elapse_shape ms w :
  let w' := zb_elapse ms w in
  let t := (zb_now w + ms)%N in
  s_on_off_callback w' = s_on_off_callback w
  /\ zb_app w' = zb_app w
  /\ zb_now w' = t
  /\ zb_alarms w' = filter (fun a => negb (alarm_due t a)) (zb_alarms w)
  /\ zb_trace w' = zb_trace w ++ map fire_event (filter (alarm_due t) (zb_alarms w)).
Proof.
  unfold zb_elapse. cbn zeta.
  match goal with |- context [fold_left zb_fire ?q ?w0] =>
    destruct (fold_zb_fire q w0) as (H1 & H2 & H3 & H4 & H5) end.
  rewrite H1, H2, H3, H4, H5. repeat split.
Qed.

Lemma fired_not_joined q : joined_reached (map fire_event q) = false.
Proof.
  induction q as [|a q IH]; [reflexivity|].
  cbn. unfold fire_event at 1. now destruct (al_cb a).
Qed.

Lemma fired_not_armed q : retries_armed (map fire_event q) = 0%nat.
Proof.
  induction q as [|a q IH]; [reflexivity|].
  unfold retries_armed in *. cbn. unfold fire_event at 1. now destruct (al_cb a).
Qed.

Lemma fired_steering_count t q :
  begin_steering_count (map fire_event (filter (alarm_due t) q)) = steering_due t q.
Proof.
  unfold begin_steering_count, steering_due.
  induction q as [|a q IH]; [reflexivity|].
  cbn. destruct (alarm_due t a); cbn; [|exact IH].
  destruct (is_begin_steering (fire_event a)); cbn; now rewrite IH.
Qed.

(** *** The alarm queue as a multiset *)

Lemma alarm_enqueue_perm a q : Permutation (alarm_enqueue a q) (a :: q).
Proof.
  induction q as [|b q IH]; cbn; [reflexivity|].
  destruct (al_due a <? al_due b)%N; [reflexivity|].
  rewrite IH. apply perm_swap.
Qed.

Lemma alarm_enqueue_length a q :
  length (alarm_enqueue a q) = S (length q).
Proof. apply (Permutation_length (alarm_enqueue_perm a q)). Qed.

Lemma filter_perm {A : Type} (f : A -> bool) (l l' : list A) :
  Permutation l l' -> Permutation (filter f l) (filter f l').
Proof.
  induction 1 as [|x l l' _ IH|x y l|l l' l'' _ IH1 _ IH2]; cbn.
  - constructor.
  - destruct (f x); [now constructor | exact IH].
  - destruct (f x), (f y); try reflexivity. apply perm_swap.
  - now transitivity (filter f l').
Qed.

Lemma steering_due_perm t q q' :
  Permutation q q' -> steering_due t q = steering_due t q'.
Proof.
  intros H. unfold steering_due.
  apply Permutation_length. now apply filter_perm.
Qed.

Lemma steering_due_app t q q' :
  steering_due t (q ++ q') = (steering_due t q + steering_due t q')%nat.
Proof. unfold steering_due. now rewrite filter_app, length_app. Qed.

(** Alarms that are not yet due contribute nothing. *)
Lemma steering_due_cold t q :
  Forall (fun a => (t < al_due a)%N) q -> steering_due t q = 0%nat.
Proof.
  unfold steering_due, alarm_due.
  induction 1 as [|a q Ha _ IH]; [reflexivity|].
  cbn. apply N.leb_gt in Ha. now rewrite Ha.
Qed.

(** Alarms due by [t + more] are those due by [t] plus those among the
    rest that come due by [t + more]. *)
Lemma steering_due_split t more q :
  steering_due (t + more) q =
  (steering_due t q
   + steering_due (t + more) (filter (fun a => negb (alarm_due t a)) q))%nat.
Proof.
  unfold steering_due, alarm_due.
  induction q as [|a q IH]; [reflexivity|].
  cbn. destruct (al_due a <=? t)%N eqn:E; cbn.
  - assert (E' : (al_due a <=? t + more)%N = true)
      by (apply N.leb_le; apply N.leb_le in E; lia).
    rewrite E'. cbn.
    destruct (is_begin_steering (fire_event a)); cbn; now rewrite IH.
  - destruct ((al_due a <=? t + more)%N && is_begin_steering (fire_event a));
      cbn; rewrite IH; lia.
Qed.

Lemma still_pending t q :
  Forall (fun a => (t < al_due a)%N) (filter (fun a => negb (alarm_due t a)) q).
Proof.
  apply Forall_forall. intros a Ha. apply filter_In in Ha.
  destruct Ha as [_ Ha]. unfold alarm_due in Ha.
  apply negb_true_iff, N.leb_gt in Ha. exact Ha.
Qed.

(** *** One step on two worlds that differ by pending alarms *)

Lemma zb_sim_signal extra w1 w2 fn s :
  zb_sim extra w1 w2 ->
  zb_sim extra (zb_zdo_signal_handler fn s w1) (zb_zdo_signal_handler fn s w2)
  /\ zb_now (zb_zdo_signal_handler fn s w2) = zb_now w2
  /\ exists k,
       begin_steering_count (zb_trace (zb_zdo_signal_handler fn s w1)) =
         (begin_steering_count (zb_trace w1) + k)%nat
       /\ begin_steering_count (zb_trace (zb_zdo_signal_handler fn s w2)) =
            (begin_steering_count (zb_trace w2) + k)%nat.
Proof.
  intros (Hcb & Happ & Hnow & Hq).
  destruct (zdo_handler_shape fn s) as (evs & _ & Hw & Hal).
  destruct (Hw w1) as (C1 & A1 & N1 & T1).
  destruct (Hw w2) as (C2 & A2 & N2 & T2).
  split; [|split; [exact N2|]].
  - unfold zb_sim. rewrite C1, C2, A1, A2, N1, N2.
    do 3 (split; [assumption|]).
    destruct Hal as [[_ Hsame]|(d & _ & _ & Henq)].
    + now rewrite !Hsame.
    + rewrite !Henq, Hnow.
      rewrite alarm_enqueue_perm, Hq.
      rewrite Permutation_middle.
      apply Permutation_app_head. symmetry. apply alarm_enqueue_perm.
  - exists (begin_steering_count evs).
    now rewrite T1, T2, !begin_steering_count_app.
Qed.

Lemma zb_sim_action extra w1 w2 id m :
  zb_sim extra w1 w2 ->
  zb_sim extra (snd (zb_action_handler id m w1)) (snd (zb_action_handler id m w2))
  /\ zb_now (snd (zb_action_handler id m w2)) = zb_now w2
  /\ begin_steering_count (zb_trace (snd (zb_action_handler id m w1))) =
       begin_steering_count (zb_trace w1)
  /\ begin_steering_count (zb_trace (snd (zb_action_handler id m w2))) =
       begin_steering_count (zb_trace w2).
Proof.
  intros (Hcb & Happ & Hnow & Hq).
  destruct (zb_action_handler_shape id m w2)
    as (C2 & N2 & Q2 & evs & T2 & _ & Hbs & _ & Hother).
  destruct (Hother w1 Hcb Happ) as (A1 & T1).
  destruct (zb_action_handler_shape id m w1) as (C1 & N1 & Q1 & _).
  cbn zeta in *.
  split; [|split; [exact N2|]].
  - unfold zb_sim. rewrite C1, C2, N1, N2, Q1, Q2, A1. auto.
  - rewrite T1, T2, !begin_steering_count_app, Hbs. lia.
Qed.

Lemma zb_sim_elapse extra w1 w2 ms :
  zb_sim extra w1 w2 ->
  let t := (zb_now w2 + ms)%N in
  zb_sim (filter (fun a => negb (alarm_due t a)) extra)
    (zb_elapse ms w1) (zb_elapse ms w2)
  /\ zb_now (zb_elapse ms w2) = t
  /\ exists k,
       begin_steering_count (zb_trace (zb_elapse ms w1)) =
         (begin_steering_count (zb_trace w1) + k + steering_due t extra)%nat
       /\ begin_steering_count (zb_trace (zb_elapse ms w2)) =
            (begin_steering_count (zb_trace w2) + k)%nat.
Proof.
  intros (Hcb & Happ & Hnow & Hq) t.
  destruct (zb_elapse_shape ms w1) as (C1 & A1 & N1 & Q1 & T1).
  destruct (zb_elapse_shape ms w2) as (C2 & A2 & N2 & Q2 & T2).
  cbn zeta in *. rewrite Hnow in *. fold t in N1, Q1, T1, N2, Q2, T2.
  split; [|split; [exact N2|]].
  - unfold zb_sim. rewrite C1, C2, A1, A2, N1, N2, Q1, Q2.
    do 3 (split; [assumption || reflexivity|]).
    rewrite <- filter_app. now apply filter_perm.
  - exists (steering_due t (zb_alarms w2)).
    rewrite T1, T2, !begin_steering_count_app, !fired_steering_count.
    rewrite (steering_due_perm t _ _ Hq), steering_due_app. lia.
Qed.

(** *** Whole runs *)

(** The steering requests that a world with extra pending alarms sees
    beyond those of the world without them are exactly the extra alarms
    that come due during the run. *)
Lemma zb_run_sim ins :
  forall extra w1 w2,
    zb_sim extra w1 w2 ->
    Forall (fun a => (zb_now w2 < al_due a)%N) extra ->
    (begin_steering_count (zb_trace (zb_run ins w1))
     + begin_steering_count (zb_trace w2)
     = begin_steering_count (zb_trace (zb_run ins w2))
       + begin_steering_count (zb_trace w1)
       + steering_due (zb_now w2 + elapsed ins) extra)%nat.
Proof.
  induction ins as [|i ins IH]; intros extra w1 w2 Hsim Hcold.
  - cbn. rewrite N.add_0_r, (steering_due_cold _ _ Hcold). lia.
  - change (zb_run (i :: ins) w1) with (zb_run ins (zb_step w1 i)).
    change (zb_run (i :: ins) w2) with (zb_run ins (zb_step w2 i)).
    destruct i as [fn s|id m|ms]; cbn [zb_step elapsed fold_right].
    + destruct (zb_sim_signal extra w1 w2 fn s Hsim) as (Hsim' & Hnow & k & K1 & K2).
      specialize (IH extra _ _ Hsim'). rewrite Hnow in IH.
      specialize (IH Hcold). fold (elapsed ins). lia.
    + destruct (zb_sim_action extra w1 w2 id m Hsim) as (Hsim' & Hnow & K1 & K2).
      specialize (IH extra _ _ Hsim'). rewrite Hnow in IH.
      specialize (IH Hcold). fold (elapsed ins). lia.
    + destruct (zb_sim_elapse extra w1 w2 ms Hsim) as (Hsim' & Hnow & k & K1 & K2).
      specialize (IH _ _ _ Hsim'). rewrite Hnow in IH.
      specialize (IH (still_pending _ _)). fold (elapsed ins).
      rewrite N.add_assoc, (steering_due_split (zb_now w2 + ms)). lia.
Qed.

(** Arming a steering retry [d > 0] ms ahead adds, to whatever else the
    stack delivers afterwards, exactly one steering request, and only
    once [d] ms have passed. *)
Lemma retry_alarm_fires_once ins w0 w d :
  s_on_off_callback w0 = s_on_off_callback w ->
  zb_app w0 = zb_app w ->
  zb_now w0 = zb_now w ->
  zb_alarms w0 = zb_alarms w ->
  begin_steering_count (zb_trace w0) = begin_steering_count (zb_trace w) ->
  (0 < d)%N ->
  begin_steering_count
    (zb_trace (zb_run ins
       (esp_zb_scheduler_alarm FN_esp_zb_bdb_start_top_level_commissioning
          ESP_ZB_BDB_MODE_NETWORK_STEERING d w0))) =
  (begin_steering_count (zb_trace (zb_run ins w))
   + if (d <=? elapsed ins)%N then 1 else 0)%nat.
Proof.
  intros Hcb Happ Hnow Hq Hcnt Hd.
  pose proof (zb_run_sim ins [steering_retry (zb_now w) d]
                (esp_zb_scheduler_alarm FN_esp_zb_bdb_start_top_level_commissioning
                   ESP_ZB_BDB_MODE_NETWORK_STEERING d w0) w) as H.
  assert (Hsim : zb_sim [steering_retry (zb_now w) d]
                   (esp_zb_scheduler_alarm FN_esp_zb_bdb_start_top_level_commissioning
                      ESP_ZB_BDB_MODE_NETWORK_STEERING d w0) w).
  { unfold zb_sim. cbn. rewrite Hcb, Happ, Hnow, Hq.
    do 3 (split; [reflexivity|]). apply alarm_enqueue_perm. }
  specialize (H Hsim).
  assert (Hcold : Forall (fun a => (zb_now w < al_due a)%N)
                    [steering_retry (zb_now w) d]).
  { constructor; [cbn; lia | constructor]. }
  specialize (H Hcold).
  assert (Hone : steering_due (zb_now w + elapsed ins) [steering_retry (zb_now w) d]
                 = if (d <=? elapsed ins)%N then 1%nat else 0%nat).
  { unfold steering_due, alarm_due. cbn.
    destruct (d <=? elapsed ins)%N eqn:E.
    - apply N.leb_le in E.
      assert (E' : (zb_now w + d <=? zb_now w + elapsed ins)%N = true)
        by (apply N.leb_le; lia).
      now rewrite E'.
    - apply N.leb_gt in E.
      assert (E' : (zb_now w + d <=? zb_now w + elapsed ins)%N = false)
        by (apply N.leb_gt; lia).
      now rewrite E'. }
  rewrite Hone in H.
  assert (Hev : begin_steering_count
                  (zb_trace (esp_zb_scheduler_alarm
                               FN_esp_zb_bdb_start_top_level_commissioning
                               ESP_ZB_BDB_MODE_NETWORK_STEERING d w0))
                = begin_steering_count (zb_trace w)).
  { unfold esp_zb_scheduler_alarm. cbn [zb_trace].
    rewrite begin_steering_count_app, Hcnt. cbn. lia. }
  rewrite Hev in H. lia.
Qed.

(** One input's effect on whether a join branch has been seen. *)
Lemma zb_step_joined w i :
  joined_reached (zb_trace (zb_step w i)) =
  joined_reached (zb_trace w) || input_joins i.
Proof.
  destruct i as [fn s|id m|ms]; cbn [zb_step input_joins].
  - destruct (zdo_handler_shape fn s) as (evs & Hj & Hw & _).
    destruct (Hw w) as (_ & _ & _ & T). now rewrite T, joined_reached_app, Hj.
  - destruct (zb_action_handler_shape id m w) as (_ & _ & _ & evs & T & Hj & _).
    cbn zeta in T. now rewrite T, joined_reached_app, Hj.
  - destruct (zb_elapse_shape ms w) as (_ & _ & _ & _ & T).
    cbn zeta in T. now rewrite T, joined_reached_app, fired_not_joined.
Qed.

(** One input's effect on the number of retry alarms armed. *)
Lemma zb_step_retries w i :
  is_steering_failure i || is_elapse i = true ->
  retries_armed (zb_trace (zb_step w i)) =
  (retries_armed (zb_trace w) + if is_steering_failure i then 1 else 0)%nat.
Proof.
  destruct i as [fn s|id m|ms]; cbn [zb_step is_steering_failure is_elapse];
    intros H.
  - rewrite orb_false_r in H. rewrite H.
    apply andb_true_iff in H. destruct H as [Hs Hst].
    apply negb_true_iff in Hst.
    rewrite (zdo_steering_failure fn s w Hs Hst).
    unfold esp_zb_scheduler_alarm, zb_log, zb_emit. cbn [zb_trace].
    rewrite !retries_armed_app. cbn. lia.
  - discriminate H.
  - destruct (zb_elapse_shape ms w) as (_ & _ & _ & _ & T).
    cbn zeta in T. rewrite T, retries_armed_app, fired_not_armed. lia.
Qed.

Lemma zb_run_snoc ins i w :
  zb_run (ins ++ [i]) w = zb_step (zb_run ins w) i.
Proof. unfold zb_run. now rewrite fold_left_app. Qed.

Lemma zb_run_retries ins :
  forall w,
    forallb (fun i => is_steering_failure i || is_elapse i) ins = true ->
    retries_armed (zb_trace (zb_run ins w)) =
    (retries_armed (zb_trace w) + length (filter is_steering_failure ins))%nat.
Proof.
  induction ins as [|i ins IH]; intros w H; [cbn; lia|].
  cbn [forallb] in H. apply andb_true_iff in H. destruct H as [Hi Hins].
  change (zb_run (i :: ins) w) with (zb_run ins (zb_step w i)).
  rewrite (IH _ Hins), (zb_step_retries w i Hi). cbn [filter].
  destruct (is_steering_failure i); cbn [length]; lia.
Qed.

End ZdoFacts.

(** Sample deliveries: the scenario of five failed steering attempts, each
    followed by its 2000 ms wait. *)
Lemma five_failures_shape :
  forallb (fun i => is_steering_failure i || is_elapse i)
    (concat (repeat [IN_signal true (zdo_signal ESP_ZB_BDB_SIGNAL_STEERING ESP_FAIL);
                     IN_elapse 2000%N] 5)) = true.
Proof. reflexivity. Qed.

(** C3.  Over every sequence of inputs from the stack -- ZDO signals, core
    actions and the passing of time with its alarms -- a join branch of the
    signal handler has been entered at the end exactly when it had been
    entered before or the sequence contains a steering signal with status
    [ESP_OK], or a first-start or reboot signal with status [ESP_OK]
    delivered while the device is not factory-new.  In particular, from a
    history without a join, a join can only be reached through such a
    signal. *)
Theorem joined_only_by_join_signal :
  forall (App : Type) (ins : list zb_input) (w : zb_world App),
    joined_reached (zb_trace (zb_run ins w)) =
      joined_reached (zb_trace w) || existsb input_joins ins
    /\ (joined_reached (zb_trace w) = false ->
        joined_reached (zb_trace (zb_run ins w)) = true ->
        exists factory_new s,
          In (IN_signal factory_new s) ins
          /\ ((app_signal s = ESP_ZB_BDB_SIGNAL_STEERING
               /\ esp_err_status s = ESP_OK)
              \/ ((app_signal s = ESP_ZB_BDB_SIGNAL_DEVICE_FIRST_START
                   \/ app_signal s = ESP_ZB_BDB_SIGNAL_DEVICE_REBOOT)
                  /\ esp_err_status s = ESP_OK
                  /\ factory_new = false))).
Proof.
  intros App ins w.
  assert (Heq : joined_reached (zb_trace (zb_run ins w)) =
                joined_reached (zb_trace w) || existsb input_joins ins).
  { revert w. induction ins as [|i ins IH]; intros w.
    - cbn. now rewrite orb_false_r.
    - change (zb_run (i :: ins) w) with (zb_run ins (zb_step w i)).
      rewrite IH, zb_step_joined. cbn [existsb]. now rewrite orb_assoc. }
  split; [exact Heq|].
  intros Hnot Hyes. rewrite Heq, Hnot in Hyes. cbn [orb] in Hyes.
  apply existsb_exists in Hyes. destruct Hyes as (i & Hin & Hi).
  destruct i as [fn s|id m|ms]; cbn in Hi; try discriminate Hi.
  exists fn, s. split; [exact Hin|].
  unfold joins_network, is_steering_signal, is_startup_signal, status_ok in Hi.
  apply orb_true_iff in Hi. destruct Hi as [Hi|Hi].
  - apply andb_true_iff in Hi. destruct Hi as [H1 H2].
    apply Z.eqb_eq in H1, H2. now left.
  - apply andb_true_iff in Hi. destruct Hi as [Hi H3].
    apply andb_true_iff in Hi. destruct Hi as [H1 H2].
    apply orb_true_iff in H1. apply Z.eqb_eq in H2. apply negb_true_iff in H3.
    right. repeat split; try assumption.
    destruct H1 as [H1|H1]; apply Z.eqb_eq in H1; [now left | now right].
Qed.

(** C3 on the wired firmware: stack ready, a failed steering attempt, the
    2000 ms wait and a successful attempt end in a join, and the theorem
    finds the signal responsible. *)
Lemma joined_only_by_join_signal_witness :
  let ins := [IN_signal true (zdo_signal ESP_ZB_ZDO_SIGNAL_SKIP_STARTUP ESP_OK);
              IN_signal true (zdo_signal ESP_ZB_BDB_SIGNAL_STEERING ESP_FAIL);
              IN_elapse 2000%N;
              IN_signal true (zdo_signal ESP_ZB_BDB_SIGNAL_STEERING ESP_OK)] in
  joined_reached (zb_trace (firmware_wired relay_cold)) = false
  /\ joined_reached (zb_trace (zb_run ins (firmware_wired relay_cold))) = true
  /\ exists factory_new s,
       In (IN_signal factory_new s) ins
       /\ ((app_signal s = ESP_ZB_BDB_SIGNAL_STEERING /\ esp_err_status s = ESP_OK)
           \/ ((app_signal s = ESP_ZB_BDB_SIGNAL_DEVICE_FIRST_START
                \/ app_signal s = ESP_ZB_BDB_SIGNAL_DEVICE_REBOOT)
               /\ esp_err_status s = ESP_OK
               /\ factory_new = false)).
Proof.
  intros ins.
  split; [reflexivity|]. split; [reflexivity|].
  exact (proj2 (joined_only_by_join_signal relay_world ins (firmware_wired relay_cold))
           eq_refl eq_refl).
Defined.

(** C4.  A steering signal with a failure status, delivered after any
    number of earlier steering failures (with whatever waits in between),
    is answered like the first one: the handler logs it and arms exactly
    one scheduler alarm, 2000 ms ahead, that calls
    [esp_zb_bdb_start_top_level_commissioning] in network-steering mode.
    The number of retries armed grows by one with every failure and is
    never consulted; and whatever the stack delivers afterwards, this
    failure accounts for exactly one additional steering request, issued
    once 2000 ms have passed. *)
Theorem steering_failure_always_retries :
  forall (App : Type) (w : zb_world App) (before : list zb_input)
         (factory_new : bool) (s : esp_zb_app_signal_t),
    forallb (fun i => is_steering_failure i || is_elapse i) before = true ->
    app_signal s = ESP_ZB_BDB_SIGNAL_STEERING ->
    esp_err_status s <> ESP_OK ->
    let wn := zb_run before w in
    let w' := zb_zdo_signal_handler factory_new s wn in
    zb_trace w' =
      zb_trace wn ++
      [ZB_log (ZLOG_steering_failed (esp_err_status s));
       ZB_scheduler_alarm FN_esp_zb_bdb_start_top_level_commissioning
         ESP_ZB_BDB_MODE_NETWORK_STEERING 2000%N]
    /\ zb_alarms w' = alarm_enqueue (steering_retry (zb_now wn) 2000%N) (zb_alarms wn)
    /\ length (zb_alarms w') = S (length (zb_alarms wn))
    /\ retries_armed (zb_trace wn) =
         (retries_armed (zb_trace w) + length (filter is_steering_failure before))%nat
    /\ retries_armed (zb_trace w') = S (retries_armed (zb_trace wn))
    /\ forall after : list zb_input,
         begin_steering_count (zb_trace (zb_run after w')) =
         (begin_steering_count (zb_trace (zb_run after wn))
          + if (2000 <=? elapsed after)%N then 1 else 0)%nat.
Proof.
  intros App w before fn s Hbefore Hsig Hst wn w'. subst w'.
  assert (Hs : is_steering_signal s = true)
    by (unfold is_steering_signal; now apply Z.eqb_eq).
  assert (Hf : status_ok s = false)
    by (unfold status_ok; now apply Z.eqb_neq).
  rewrite (zdo_steering_failure fn s wn Hs Hf).
  split; [|split; [|split; [|split; [|split]]]].
  - cbn. now rewrite <- app_assoc.
  - reflexivity.
  - cbn. apply alarm_enqueue_length.
  - apply zb_run_retries. exact Hbefore.
  - unfold esp_zb_scheduler_alarm, zb_log, zb_emit. cbn [zb_trace].
    rewrite !retries_armed_app. cbn. lia.
  - intros after. apply retry_alarm_fires_once; try reflexivity.
    unfold zb_log, zb_emit. cbn [zb_trace].
    rewrite begin_steering_count_app. cbn. lia.
Qed.

(** C4 on the wired firmware: after five failed attempts the sixth failure
    arms a sixth retry, and 2000 ms later the sixth steering request of
    the run (after the five earlier retries) goes out. *)
Lemma steering_failure_always_retries_witness :
  let fail := zdo_signal ESP_ZB_BDB_SIGNAL_STEERING ESP_FAIL in
  let before := concat (repeat [IN_signal true fail; IN_elapse 2000%N] 5) in
  let wn := zb_run before (firmware_wired relay_cold) in
  let w' := zb_zdo_signal_handler true fail wn in
  retries_armed (zb_trace wn) = 5%nat
  /\ retries_armed (zb_trace w') = 6%nat
  /\ begin_steering_count (zb_trace (zb_run [IN_elapse 1999%N] w')) = 5%nat
  /\ begin_steering_count (zb_trace (zb_run [IN_elapse 2000%N] w')) = 6%nat.
Proof.
  intros fail before wn w'.
  assert (Hst : esp_err_status fail <> ESP_OK) by (cbn; discriminate).
  destruct (steering_failure_always_retries relay_world (firmware_wired relay_cold)
              before true fail five_failures_shape eq_refl Hst)
    as (_ & _ & _ & Hn & Hn' & Hafter).
  fold wn in Hn, Hn', Hafter. fold w' in Hn', Hafter.
  split; [rewrite Hn; reflexivity|].
  split; [rewrite Hn', Hn; reflexivity|].
  split; rewrite Hafter; reflexivity.
Defined.

(** C5.  A first-start or reboot signal with a failure status makes the
    handler log it and arm exactly one scheduler alarm, 1000 ms ahead, that
    calls [esp_zb_bdb_start_top_level_commissioning] in network-steering
    mode.  The handler itself issues no steering request; and whatever the
    stack delivers afterwards, this failure accounts for exactly one
    additional steering request, none while fewer than 1000 ms have
    passed and one, never more, from then on. *)
Theorem startup_failure_retries_once_after_1000ms :
  forall (App : Type) (w : zb_world App) (factory_new : bool)
         (s : esp_zb_app_signal_t),
    app_signal s = ESP_ZB_BDB_SIGNAL_DEVICE_FIRST_START
    \/ app_signal s = ESP_ZB_BDB_SIGNAL_DEVICE_REBOOT ->
    esp_err_status s <> ESP_OK ->
    let w' := zb_zdo_signal_handler factory_new s w in
    zb_trace w' =
      zb_trace w ++
      [ZB_log (ZLOG_startup_failed (esp_err_status s));
       ZB_scheduler_alarm FN_esp_zb_bdb_start_top_level_commissioning
         ESP_ZB_BDB_MODE_NETWORK_STEERING 1000%N]
    /\ zb_alarms w' = alarm_enqueue (steering_retry (zb_now w) 1000%N) (zb_alarms w)
    /\ length (zb_alarms w') = S (length (zb_alarms w))
    /\ begin_steering_count (zb_trace w') = begin_steering_count (zb_trace w)
    /\ forall after : list zb_input,
         begin_steering_count (zb_trace (zb_run after w')) =
         (begin_steering_count (zb_trace (zb_run after w))
          + if (1000 <=? elapsed after)%N then 1 else 0)%nat.
Proof.
  intros App w fn s Hsig Hst w'. subst w'.
  assert (Hs : is_startup_signal s = true).
  { unfold is_startup_signal. apply orb_true_iff.
    destruct Hsig as [H|H]; [left | right]; now apply Z.eqb_eq. }
  assert (Hf : status_ok s = false)
    by (unfold status_ok; now apply Z.eqb_neq).
  rewrite (zdo_startup_failure fn s w Hs Hf).
  split; [|split; [|split; [|split]]].
  - cbn. now rewrite <- app_assoc.
  - reflexivity.
  - cbn. apply alarm_enqueue_length.
  - unfold esp_zb_scheduler_alarm, zb_log, zb_emit. cbn [zb_trace].
    rewrite !begin_steering_count_app. cbn. lia.
  - intros after. apply retry_alarm_fires_once; try reflexivity.
    unfold zb_log, zb_emit. cbn [zb_trace].
    rewrite begin_steering_count_app. cbn. lia.
Qed.

(** C5 on the wired firmware: after a failed reboot no steering request
    has gone out 999 ms later, one has at 1000 ms, and still only one after
    a further five seconds. *)
Lemma startup_failure_retries_once_after_1000ms_witness :
  let fail := zdo_signal ESP_ZB_BDB_SIGNAL_DEVICE_REBOOT ESP_FAIL in
  let w' := zb_zdo_signal_handler false fail (firmware_wired relay_cold) in
  begin_steering_count (zb_trace w') = 0%nat
  /\ zb_alarms w' = [steering_retry 0 1000]
  /\ begin_steering_count (zb_trace (zb_run [IN_elapse 999%N] w')) = 0%nat
  /\ begin_steering_count (zb_trace (zb_run [IN_elapse 1000%N] w')) = 1%nat
  /\ begin_steering_count
       (zb_trace (zb_run [IN_elapse 1000%N; IN_elapse 5000%N] w')) = 1%nat.
Proof.
  intros fail w'.
  assert (Hst : esp_err_status fail <> ESP_OK) by (cbn; discriminate).
  destruct (startup_failure_retries_once_after_1000ms relay_world
              (firmware_wired relay_cold) false fail (or_intror eq_refl) Hst)
    as (_ & Hq & _ & Hnow & Hafter).
  fold w' in Hq, Hnow, Hafter.
  split; [rewrite Hnow; reflexivity|].
  split; [rewrite Hq; reflexivity|].
  repeat split; rewrite Hafter; reflexivity.
Defined.

(* ================================================================== *)
(** * Further properties of the relay module *)
(* ================================================================== *)

Lemma relay_do_other_pins w c p :
  p <> RELAY_GPIO_PIN -> gpio_out (relay_do w c) p = gpio_out w p.
Proof.
  intros Hp. apply Z.eqb_neq in Hp.
  destruct c as [on|]; cbn; now rewrite Hp.
Qed.

Lemma relay_run_other_pins calls :
  forall w p, p <> RELAY_GPIO_PIN -> gpio_out (relay_run calls w) p = gpio_out w p.
Proof.
  induction calls as [|c calls IH]; intros w p Hp; [reflexivity|].
  cbn [relay_run fold_left]. fold (relay_run calls (relay_do w c)).
  now rewrite IH, relay_do_other_pins.
Qed.

Lemma relay_init_other_pins ret w p :
  p <> RELAY_GPIO_PIN -> gpio_out (snd (relay_init ret w)) p = gpio_out w p.
Proof.
  intros Hp. apply Z.eqb_neq in Hp.
  unfold relay_init, gpio_config. destruct (ret =? ESP_OK); cbn; [|reflexivity].
  now rewrite Hp.
Qed.

Lemma relay_do_calls w c :
  exists level,
    gpio_calls (relay_do w c) = gpio_calls w ++ [GPIO_set_level RELAY_GPIO_PIN level].
Proof. destruct c as [on|]; eexists; reflexivity. Qed.

Lemma relay_run_consistent calls :
  forall w, relay_consistent w -> relay_consistent (relay_run calls w).
Proof.
  induction calls as [|c calls IH]; intros w Hw; [exact Hw|].
  cbn [relay_run fold_left]. apply IH. apply relay_do_level.
Qed.

Lemma relay_init_consistent ret w :
  fst (relay_init ret w) = ESP_OK -> relay_consistent (snd (relay_init ret w)).
Proof.
  rewrite relay_init_returns. intros ->. reflexivity.
Qed.

(** X1.  Once [relay_init] has succeeded, after any sequence of
    [relay_set] / [relay_toggle] calls -- the empty one included -- the
    relay pin carries the level of the stored state: 1 when
    [relay_get_state] answers true, 0 when it answers false. *)
Theorem relay_pin_always_follows_state :
  forall (ret : esp_err_t) (w0 : relay_world) (calls : list relay_call),
    fst (relay_init ret w0) = ESP_OK ->
    let w := relay_run calls (snd (relay_init ret w0)) in
    gpio_out w RELAY_GPIO_PIN = if relay_get_state w then 1 else 0.
Proof.
  intros ret w0 calls Hok. cbn zeta.
  apply relay_run_consistent, relay_init_consistent, Hok.
Qed.

Lemma relay_pin_always_follows_state_witness :
  gpio_out (relay_run [CALL_set true; CALL_toggle; CALL_toggle]
              (snd (relay_init ESP_OK relay_energised))) RELAY_GPIO_PIN = 1
  /\ gpio_out (relay_run [] (snd (relay_init ESP_OK relay_energised)))
       RELAY_GPIO_PIN = 0.
Proof.
  split.
  - exact (relay_pin_always_follows_state ESP_OK relay_energised
             [CALL_set true; CALL_toggle; CALL_toggle] eq_refl).
  - exact (relay_pin_always_follows_state ESP_OK relay_energised [] eq_refl).
Defined.

(** X2.  The relay module drives the relay pin and no other: whatever
    [relay_init] returns and whatever calls follow, the latch of every
    other pin is as it was, and every driver call the module has added
    names the relay pin (in its level writes) or its bit (in the
    configuration mask). *)
Theorem relay_module_touches_only_its_pin :
  forall (ret : esp_err_t) (w0 : relay_world) (calls : list relay_call) (p : Z),
    p <> RELAY_GPIO_PIN ->
    let w := relay_run calls (snd (relay_init ret w0)) in
    gpio_out w p = gpio_out w0 p
    /\ exists added, gpio_calls w = gpio_calls w0 ++ added /\ only_relay_pin added.
Proof.
  intros ret w0 calls p Hp. cbn zeta. split.
  - now rewrite relay_run_other_pins, relay_init_other_pins.
  - assert (Hinit : exists added,
               gpio_calls (snd (relay_init ret w0)) = gpio_calls w0 ++ added
               /\ only_relay_pin added).
    { unfold relay_init, gpio_config. destruct (ret =? ESP_OK); cbn.
      - eexists. split; [rewrite <- app_assoc; reflexivity|].
        repeat constructor.
      - eexists. split; [reflexivity|]. repeat constructor. }
    generalize dependent (snd (relay_init ret w0)). clear ret.
    induction calls as [|c calls IH] using rev_ind; intros w (added & Hadd & Honly).
    + exists added. now split.
    + rewrite relay_run_snoc.
      destruct (IH w (ex_intro _ added (conj Hadd Honly))) as (added' & Hadd' & Honly').
      destruct (relay_do_calls (relay_run calls w) c) as (level & Hc).
      exists (added' ++ [GPIO_set_level RELAY_GPIO_PIN level]). split.
      * now rewrite Hc, Hadd', app_assoc.
      * apply Forall_app. split; [exact Honly'|]. now repeat constructor.
Qed.

Lemma relay_module_touches_only_its_pin_witness :
  gpio_out (relay_run [CALL_set true; CALL_toggle]
              (snd (relay_init ESP_OK relay_cold))) 9 = gpio_out relay_cold 9.
Proof.
  assert (H : 9 <> RELAY_GPIO_PIN) by discriminate.
  exact (proj1 (relay_module_touches_only_its_pin ESP_OK relay_cold
                  [CALL_set true; CALL_toggle] 9 H)).
Defined.

(** X3.  Every [relay_set] and every [relay_toggle] performs exactly one
    level write on the driver, also when it leaves the state as it was:
    after any sequence of calls the number of level writes has grown by
    the number of calls. *)
Theorem relay_writes_once_per_call :
  forall (calls : list relay_call) (w : relay_world),
    length (filter is_level_write (gpio_calls (relay_run calls w))) =
    (length (filter is_level_write (gpio_calls w)) + length calls)%nat.
Proof.
  induction calls as [|c calls IH] using rev_ind; intros w.
  - cbn. lia.
  - rewrite relay_run_snoc.
    destruct (relay_do_calls (relay_run calls w) c) as (level & Hc).
    rewrite Hc, filter_app, !length_app, IH. cbn. lia.
Qed.

(** X4.  A [relay_set] overrides whatever went before: after any sequence
    of calls that ends in [relay_set on], the stored state and every
    output latch are those a single [relay_set on] would have left. *)
Theorem relay_set_overrides_history :
  forall (calls : list relay_call) (on : bool) (w : relay_world),
    let w' := relay_run (calls ++ [CALL_set on]) w in
    relay_get_state w' = on
    /\ forall p, gpio_out w' p = gpio_out (relay_set on w) p.
Proof.
  intros calls on w. cbn zeta. rewrite relay_run_snoc. cbn [relay_do].
  split; [reflexivity|].
  intros p. destruct (Z.eq_dec p RELAY_GPIO_PIN) as [->|Hp].
  - now rewrite !relay_set_level.
  - pose proof (relay_do_other_pins (relay_run calls w) (CALL_set on) p Hp) as H1.
    pose proof (relay_do_other_pins w (CALL_set on) p Hp) as H2.
    cbn [relay_do] in H1, H2.
    now rewrite H1, H2, relay_run_other_pins.
Qed.

(* ================================================================== *)
(** * Further properties of the attribute path *)
(* ================================================================== *)

Local Ltac handler_quiet :=
  cbn -[callback_invocations];
  do 3 (split; [reflexivity|]);
  split; [reflexivity | apply callback_invocations_log].

(** The handler's effect, read off [forwards] and the callback slot. *)
Lemma zb_attribute_handler_effect {App : Type} (w : zb_world App) message :
  let w' := snd (zb_attribute_handler message w) in
  s_on_off_callback w' = s_on_off_callback w
  /\ zb_now w' = zb_now w
  /\ zb_alarms w' = zb_alarms w
  /\ match forwards message, s_on_off_callback w with
     | Some on, Some cb =>
         zb_app w' = cb on (zb_app w)
         /\ callback_invocations (zb_trace w') =
            callback_invocations (zb_trace w) ++ [ZB_on_off_callback on]
     | _, _ =>
         zb_app w' = zb_app w
         /\ callback_invocations (zb_trace w') = callback_invocations (zb_trace w)
     end.
Proof.
  unfold zb_attribute_handler, forwards, addresses_on_off.
  destruct message as [m|]; [|handler_quiet].
  destruct (info_status (msg_info m) =? ESP_ZB_ZCL_STATUS_SUCCESS);
    [|handler_quiet].
  cbn [negb andb].
  destruct (info_dst_endpoint (msg_info m) =? ZIGBEE_ENDPOINT); [|handler_quiet].
  destruct (info_cluster (msg_info m) =? ESP_ZB_ZCL_CLUSTER_ID_ON_OFF);
    [|handler_quiet].
  cbn [andb].
  destruct ((attr_id (msg_attribute m) =? ESP_ZB_ZCL_ATTR_ON_OFF_ON_OFF_ID)
            && (data_type (attr_data (msg_attribute m)) =? ESP_ZB_ZCL_ATTR_TYPE_BOOL));
    [|handler_quiet].
  cbn -[coerce_on_off callback_invocations].
  destruct (s_on_off_callback w) as [cb|] eqn:Ecb;
    cbn -[coerce_on_off callback_invocations].
  - split; [exact Ecb|]. do 2 (split; [reflexivity|]). split; [reflexivity|].
    rewrite callback_invocations_app, !callback_invocations_log. reflexivity.
  - split; [exact Ecb|]. do 2 (split; [reflexivity|]). split; [reflexivity|].
    now rewrite !callback_invocations_log.
Qed.

(** X5.  The attribute handler calls through [s_on_off_callback] exactly
    when five things hold together -- the message pointer is not null, its
    status is success, it addresses endpoint 10 / On/Off cluster / on/off
    attribute, its data type is boolean, and a callback is registered --
    and then exactly once, with the value read from the message.  In every
    other case, a null message and an empty callback slot included,
    nothing is invoked and the application state is untouched.  The
    handler never changes the callback slot. *)
Theorem zb_attribute_handler_forwards_exactly :
  forall (App : Type) (w : zb_world App)
         (message : option esp_zb_zcl_set_attr_value_message_t),
    let w' := snd (zb_attribute_handler message w) in
    s_on_off_callback w' = s_on_off_callback w
    /\ match forwards message, s_on_off_callback w with
       | Some on, Some cb =>
           zb_app w' = cb on (zb_app w)
           /\ callback_invocations (zb_trace w') =
              callback_invocations (zb_trace w) ++ [ZB_on_off_callback on]
       | _, _ =>
           zb_app w' = zb_app w
           /\ callback_invocations (zb_trace w') = callback_invocations (zb_trace w)
       end.
Proof.
  intros App w message.
  destruct (zb_attribute_handler_effect w message) as (H1 & _ & _ & H4).
  split; assumption.
Qed.

(** X6.  The handler's return value reports on the message only, not on
    what was done with it: [ESP_FAIL] for a null message,
    [ESP_ERR_INVALID_ARG] for a status other than success, and [ESP_OK]
    for every success-status message -- whether it was forwarded, ignored
    for its address or type, or dropped because no callback is
    registered. *)
Theorem zb_attribute_handler_return_value :
  forall (App : Type) (w : zb_world App)
         (message : option esp_zb_zcl_set_attr_value_message_t),
    fst (zb_attribute_handler message w) =
    match message with
    | None => ESP_FAIL
    | Some m =>
        if info_status (msg_info m) =? ESP_ZB_ZCL_STATUS_SUCCESS
        then ESP_OK else ESP_ERR_INVALID_ARG
    end.
Proof.
  intros App w [m|]; [|reflexivity].
  unfold zb_attribute_handler.
  now destruct (info_status (msg_info m) =? ESP_ZB_ZCL_STATUS_SUCCESS).
Qed.

(** X7.  [zb_action_handler] lets only the set-attribute-value action
    through to the attribute handler.  Every other core action, whatever
    message comes with it, is answered [ESP_OK] with one log line: no
    callback is invoked and the application state, callback slot and alarm
    queue stay as they were. *)
Theorem zb_action_handler_ignores_other_actions :
  forall (App : Type) (w : zb_world App) (callback_id : Z)
         (message : option esp_zb_zcl_set_attr_value_message_t),
    callback_id <> ESP_ZB_CORE_SET_ATTR_VALUE_CB_ID ->
    let r := zb_action_handler callback_id message w in
    fst r = ESP_OK
    /\ snd r = zb_log (ZLOG_action callback_id) w
    /\ zb_app (snd r) = zb_app w
    /\ s_on_off_callback (snd r) = s_on_off_callback w
    /\ zb_alarms (snd r) = zb_alarms w
    /\ callback_invocations (zb_trace (snd r)) = callback_invocations (zb_trace w).
Proof.
  intros App w id message Hid. cbn zeta. unfold zb_action_handler.
  apply Z.eqb_neq in Hid. rewrite Hid. cbn [fst snd].
  repeat split. apply callback_invocations_log.
Qed.

Lemma zb_action_handler_ignores_other_actions_witness :
  let m := on_off_message ESP_ZB_ZCL_STATUS_SUCCESS ZIGBEE_ENDPOINT
             ESP_ZB_ZCL_CLUSTER_ID_ON_OFF ESP_ZB_ZCL_ATTR_ON_OFF_ON_OFF_ID
             ESP_ZB_ZCL_ATTR_TYPE_BOOL (Some true) in
  let r := zb_action_handler 0x1005 (Some m) (firmware_wired relay_cold) in
  fst r = ESP_OK /\ relay_get_state (zb_app (snd r)) = false.
Proof.
  intros m r.
  assert (Hid : 0x1005 <> ESP_ZB_CORE_SET_ATTR_VALUE_CB_ID) by discriminate.
  destruct (zb_action_handler_ignores_other_actions relay_world
              (firmware_wired relay_cold) 0x1005 (Some m) Hid)
    as (Hr & _ & Happ & _).
  subst r. split; [exact Hr|]. rewrite Happ. reflexivity.
Defined.

(** X8.  The callback slot is a single slot and the last registration
    wins: after registering [cb1] and then [cb2], a forwarded message
    reaches [cb2] only, once; and after registering the null pointer a
    forwarded message reaches nobody.  Registering leaves the application
    state and the alarm queue alone. *)
Theorem register_on_off_callback_last_wins :
  forall (App : Type) (w : zb_world App)
         (cb1 cb2 : zigbee_on_off_callback_t App)
         (message : option esp_zb_zcl_set_attr_value_message_t) (on : bool),
    forwards message = Some on ->
    let w2 := zigbee_handler_register_on_off_callback (Some cb2)
                (zigbee_handler_register_on_off_callback (Some cb1) w) in
    let w0 := zigbee_handler_register_on_off_callback None w2 in
    zb_app w2 = zb_app w /\ zb_alarms w2 = zb_alarms w
    /\ zb_app (snd (zb_attribute_handler message w2)) = cb2 on (zb_app w)
    /\ callback_invocations (zb_trace (snd (zb_attribute_handler message w2))) =
         callback_invocations (zb_trace w) ++ [ZB_on_off_callback on]
    /\ zb_app (snd (zb_attribute_handler message w0)) = zb_app w
    /\ callback_invocations (zb_trace (snd (zb_attribute_handler message w0))) =
         callback_invocations (zb_trace w).
Proof.
  intros App w cb1 cb2 message on Hfw w2 w0.
  do 2 (split; [reflexivity|]).
  destruct (zb_attribute_handler_effect w2 message) as (_ & _ & _ & H2).
  destruct (zb_attribute_handler_effect w0 message) as (_ & _ & _ & H0).
  rewrite Hfw in H2, H0. cbn [w2 w0 s_on_off_callback
    zigbee_handler_register_on_off_callback zb_log zb_emit] in H2, H0.
  destruct H2 as (A2 & T2). destruct H0 as (A0 & T0).
  split; [exact A2|]. split.
  - rewrite T2. subst w2. cbn [zb_trace zigbee_handler_register_on_off_callback
      zb_log zb_emit]. now rewrite !callback_invocations_log.
  - split; [exact A0|]. rewrite T0. subst w0 w2.
    cbn [zb_trace zigbee_handler_register_on_off_callback zb_log zb_emit].
    now rewrite !callback_invocations_log.
Qed.

Lemma register_on_off_callback_last_wins_witness :
  let m := Some (on_off_message ESP_ZB_ZCL_STATUS_SUCCESS ZIGBEE_ENDPOINT
                   ESP_ZB_ZCL_CLUSTER_ID_ON_OFF ESP_ZB_ZCL_ATTR_ON_OFF_ON_OFF_ID
                   ESP_ZB_ZCL_ATTR_TYPE_BOOL (Some true)) in
  let w2 := zigbee_handler_register_on_off_callback (Some on_zigbee_on_off_command)
              (zigbee_handler_register_on_off_callback (Some (fun _ r => r))
                 (firmware_wired relay_cold)) in
  relay_get_state (zb_app (snd (zb_attribute_handler m w2))) = true.
Proof.
  cbv zeta.
  destruct (register_on_off_callback_last_wins relay_world (firmware_wired relay_cold)
              (fun _ r => r) on_zigbee_on_off_command
              (Some (on_off_message ESP_ZB_ZCL_STATUS_SUCCESS ZIGBEE_ENDPOINT
                       ESP_ZB_ZCL_CLUSTER_ID_ON_OFF ESP_ZB_ZCL_ATTR_ON_OFF_ON_OFF_ID
                       ESP_ZB_ZCL_ATTR_TYPE_BOOL (Some true)))
              true eq_refl)
    as (_ & _ & Happ & _).
  exact (eq_trans (f_equal relay_get_state Happ) eq_refl).
Defined.

(* ================================================================== *)
(** * Further properties of the signal handler and whole runs *)
(* ================================================================== *)

Local Ltac zdo_branch :=
  unfold esp_zb_scheduler_alarm, esp_zb_bdb_start_top_level_commissioning,
    zb_log, zb_emit;
  cbn [zb_trace zb_alarms zb_now zb_app s_on_off_callback];
  rewrite ?begin_steering_count_app, ?retries_armed_app;
  cbn; repeat split; lia.

(** What one delivery does, read off [steers_at_once] and [arms_retry]. *)
Lemma zdo_handler_effect {App : Type} (w : zb_world App) fn s :
  let w' := zb_zdo_signal_handler fn s w in
  begin_steering_count (zb_trace w') =
    (begin_steering_count (zb_trace w) + if steers_at_once fn s then 1 else 0)%nat
  /\ retries_armed (zb_trace w') =
       (retries_armed (zb_trace w) + if arms_retry s then 1 else 0)%nat
  /\ zb_alarms w' =
       if arms_retry s
       then alarm_enqueue (steering_retry (zb_now w) (retry_delay s)) (zb_alarms w)
       else zb_alarms w.
Proof.
  destruct s as [sig st].
  unfold zb_zdo_signal_handler, steers_at_once, arms_retry, retry_delay,
    is_steering_signal, is_startup_signal, status_ok.
  cbn [app_signal esp_err_status].
  destruct (sig =? ESP_ZB_ZDO_SIGNAL_SKIP_STARTUP) eqn:E1.
  { apply Z.eqb_eq in E1. subst sig. zdo_branch. }
  destruct ((sig =? ESP_ZB_BDB_SIGNAL_DEVICE_FIRST_START)
            || (sig =? ESP_ZB_BDB_SIGNAL_DEVICE_REBOOT)) eqn:E2.
  { destruct (st =? ESP_OK) eqn:E4; [destruct fn|]; zdo_branch. }
  destruct (sig =? ESP_ZB_BDB_SIGNAL_STEERING) eqn:E3.
  { destruct (st =? ESP_OK) eqn:E4; zdo_branch. }
  zdo_branch.
Qed.

(** X9.  The signal handler asks the stack for network steering at once
    on exactly two occasions: the stack-ready signal, whatever status
    comes with it, and a first-start or reboot signal with status
    [ESP_OK] while the device is factory-new.  On those it issues exactly
    one request; on every other delivery, none. *)
Theorem zdo_steers_at_once_exactly :
  forall (App : Type) (w : zb_world App) (factory_new : bool)
         (s : esp_zb_app_signal_t),
    begin_steering_count (zb_trace (zb_zdo_signal_handler factory_new s w)) =
      (begin_steering_count (zb_trace w)
       + if steers_at_once factory_new s then 1 else 0)%nat
    /\ (steers_at_once factory_new s = true <->
        app_signal s = ESP_ZB_ZDO_SIGNAL_SKIP_STARTUP
        \/ ((app_signal s = ESP_ZB_BDB_SIGNAL_DEVICE_FIRST_START
             \/ app_signal s = ESP_ZB_BDB_SIGNAL_DEVICE_REBOOT)
            /\ esp_err_status s = ESP_OK /\ factory_new = true)).
Proof.
  intros App w fn s. split.
  - apply (zdo_handler_effect w fn s).
  - unfold steers_at_once, is_startup_signal, status_ok.
    rewrite orb_true_iff, !andb_true_iff, orb_true_iff, !Z.eqb_eq. tauto.
Qed.

(** X10.  The signal handler arms a retry alarm exactly on a failed
    first-start or reboot signal (1000 ms ahead) and on a failed steering
    signal (2000 ms ahead), one alarm each time, inserted into the queue.
    No other delivery arms anything, and no delivery ever removes or
    replaces a pending alarm: the queue is otherwise left as it is. *)
Theorem zdo_arms_retry_exactly :
  forall (App : Type) (w : zb_world App) (factory_new : bool)
         (s : esp_zb_app_signal_t),
    let w' := zb_zdo_signal_handler factory_new s w in
    retries_armed (zb_trace w') =
      (retries_armed (zb_trace w) + if arms_retry s then 1 else 0)%nat
    /\ zb_alarms w' =
         (if arms_retry s
          then alarm_enqueue (steering_retry (zb_now w) (retry_delay s)) (zb_alarms w)
          else zb_alarms w)
    /\ Permutation (zb_alarms w')
         ((if arms_retry s then [steering_retry (zb_now w) (retry_delay s)] else [])
          ++ zb_alarms w)
    /\ (arms_retry s = true <->
        (app_signal s = ESP_ZB_BDB_SIGNAL_DEVICE_FIRST_START
         \/ app_signal s = ESP_ZB_BDB_SIGNAL_DEVICE_REBOOT
         \/ app_signal s = ESP_ZB_BDB_SIGNAL_STEERING)
        /\ esp_err_status s <> ESP_OK).
Proof.
  intros App w fn s. cbn zeta.
  destruct (zdo_handler_effect w fn s) as (_ & Hr & Hq).
  split; [exact Hr|]. split; [exact Hq|]. split.
  - rewrite Hq. destruct (arms_retry s); [apply alarm_enqueue_perm | reflexivity].
  - unfold arms_retry, is_startup_signal, is_steering_signal, status_ok.
    rewrite andb_true_iff, !orb_true_iff, negb_true_iff, !Z.eqb_eq, Z.eqb_neq.
    tauto.
Qed.

(** One input of the main loop and the application behind the callback. *)
Lemma zb_step_app {App : Type} (w : zb_world App) i :
  s_on_off_callback (zb_step w i) = s_on_off_callback w
  /\ zb_app (zb_step w i) =
     match command_of i, s_on_off_callback w with
     | Some on, Some cb => cb on (zb_app w)
     | _, _ => zb_app w
     end.
Proof.
  destruct i as [fn s|id m|ms]; cbn [zb_step command_of].
  - destruct (@zdo_handler_shape App fn s) as (evs & _ & Hw & _).
    destruct (Hw w) as (C & A & _). now split.
  - unfold zb_action_handler.
    destruct (id =? ESP_ZB_CORE_SET_ATTR_VALUE_CB_ID); [|now split].
    destruct (zb_attribute_handler_effect w m) as (C & _ & _ & H).
    split; [exact C|].
    destruct (forwards m), (s_on_off_callback w); tauto.
  - destruct (zb_elapse_shape ms w) as (C & A & _). now split.
Qed.

Lemma zb_run_callback {App : Type} ins :
  forall w : zb_world App,
    s_on_off_callback (zb_run ins w) = s_on_off_callback w.
Proof.
  induction ins as [|i ins IH]; intros w; [reflexivity|].
  change (zb_run (i :: ins) w) with (zb_run ins (zb_step w i)).
  rewrite IH. apply zb_step_app.
Qed.

Lemma zb_run_app_depends {App : Type} ins :
  forall w1 w2 : zb_world App,
    s_on_off_callback w1 = s_on_off_callback w2 ->
    zb_app w1 = zb_app w2 ->
    zb_app (zb_run ins w1) = zb_app (zb_run (filter is_action ins) w2).
Proof.
  induction ins as [|i ins IH]; intros w1 w2 Hcb Happ; [exact Happ|].
  change (zb_run (i :: ins) w1) with (zb_run ins (zb_step w1 i)).
  destruct (zb_step_app w1 i) as (C1 & A1).
  destruct i as [fn s|id m|ms]; cbn [filter is_action].
  - apply IH; [now rewrite C1 | now rewrite A1].
  - change (zb_run (IN_action id m :: filter is_action ins) w2)
      with (zb_run (filter is_action ins) (zb_step w2 (IN_action id m))).
    destruct (zb_step_app w2 (IN_action id m)) as (C2 & A2).
    apply IH; [now rewrite C1, C2 | now rewrite A1, A2, Hcb, Happ].
  - apply IH; [now rewrite C1 | now rewrite A1].
Qed.

(** X11.  Network events never switch anything: over any sequence of
    inputs, the application state behind the callback is what the core
    actions in the sequence alone would have produced -- ZDO signals of
    every kind and the passing of time, retry alarms included, leave it
    untouched -- and the callback slot is never changed by the main loop. *)
Theorem signals_and_time_leave_application_alone :
  forall (App : Type) (ins : list zb_input) (w : zb_world App),
    zb_app (zb_run ins w) = zb_app (zb_run (filter is_action ins) w)
    /\ s_on_off_callback (zb_run ins w) = s_on_off_callback w.
Proof.
  intros App ins w. split.
  - now apply zb_run_app_depends.
  - apply zb_run_callback.
Qed.

Lemma pending_steering_perm q q' :
  Permutation q q' -> pending_steering q = pending_steering q'.
Proof.
  intros H. unfold pending_steering. apply Permutation_length. now apply filter_perm.
Qed.

Lemma pending_steering_split t q :
  pending_steering q =
  (steering_due t q + pending_steering (filter (fun a => negb (alarm_due t a)) q))%nat.
Proof.
  unfold pending_steering, steering_due.
  induction q as [|a q IH]; [reflexivity|].
  cbn. destruct (alarm_due t a); cbn;
    destruct (is_begin_steering (fire_event a)); cbn; lia.
Qed.

Lemma zb_step_conserves {App : Type} (w : zb_world App) i :
  (begin_steering_count (zb_trace (zb_step w i))
   + pending_steering (zb_alarms (zb_step w i))
   = begin_steering_count (zb_trace w) + pending_steering (zb_alarms w)
     + (if input_steers_at_once i then 1 else 0)
     + (if input_arms_retry i then 1 else 0))%nat.
Proof.
  destruct i as [fn s|id m|ms]; cbn [zb_step input_steers_at_once input_arms_retry].
  - destruct (zdo_handler_effect w fn s) as (Hb & _ & Hq).
    rewrite Hb, Hq. destruct (arms_retry s).
    + rewrite (pending_steering_perm _ _ (alarm_enqueue_perm _ _)).
      unfold pending_steering at 1. cbn. fold (pending_steering (zb_alarms w)). lia.
    + lia.
  - destruct (zb_action_handler_shape id m w) as (_ & _ & Q & evs & T & _ & Hb & _).
    cbn zeta in *. rewrite T, Q, begin_steering_count_app, Hb. lia.
  - destruct (zb_elapse_shape ms w) as (_ & _ & _ & Q & T). cbn zeta in *.
    rewrite T, Q, begin_steering_count_app, fired_steering_count.
    rewrite (pending_steering_split (zb_now w + ms) (zb_alarms w)). lia.
Qed.

(** X12.  No steering request is lost and none is made up.  Over any
    sequence of inputs, the requests issued so far plus the retries still
    pending in the scheduler grow by exactly one for each delivery that
    steers at once and one for each failure that arms a retry.  Retries
    armed by failures that follow one another without a wait all stay
    pending side by side; none replaces another. *)
Theorem steering_requests_are_conserved :
  forall (App : Type) (ins : list zb_input) (w : zb_world App),
    (begin_steering_count (zb_trace (zb_run ins w))
     + pending_steering (zb_alarms (zb_run ins w))
     = begin_steering_count (zb_trace w) + pending_steering (zb_alarms w)
       + length (filter input_steers_at_once ins)
       + length (filter input_arms_retry ins))%nat.
Proof.
  intros App ins. induction ins as [|i ins IH]; intros w; [cbn; lia|].
  change (zb_run (i :: ins) w) with (zb_run ins (zb_step w i)).
  rewrite IH. pose proof (zb_step_conserves w i) as H. cbn [filter].
  destruct (input_steers_at_once i), (input_arms_retry i); cbn [length]; lia.
Qed.

(* ================================================================== *)
(** * Properties of the wired firmware and of start-up *)
(* ================================================================== *)

Lemma on_zigbee_on_off_command_effect on r :
  let r' := on_zigbee_on_off_command on r in
  s_relay_state r' = on
  /\ relay_consistent r'
  /\ (forall p, p <> RELAY_GPIO_PIN -> gpio_out r' p = gpio_out r p)
  /\ gpio_calls r' =
     gpio_calls r ++ [GPIO_set_level RELAY_GPIO_PIN (if on then 1 else 0)].
Proof.
  cbn zeta. unfold on_zigbee_on_off_command, relay_consistent.
  split; [reflexivity|]. split; [now rewrite relay_set_level|]. split.
  - intros p Hp. apply Z.eqb_neq in Hp. cbn. now rewrite Hp.
  - now destruct on.
Qed.

Lemma firmware_step (w : firmware_world) i :
  s_on_off_callback w = Some on_zigbee_on_off_command ->
  s_on_off_callback (zb_step w i) = Some on_zigbee_on_off_command
  /\ zb_app (zb_step w i) =
     match command_of i with
     | Some on => on_zigbee_on_off_command on (zb_app w)
     | None => zb_app w
     end.
Proof.
  intros Hcb. destruct (zb_step_app w i) as (C & A).
  rewrite C, A, Hcb. split; [reflexivity|]. now destruct (command_of i).
Qed.

Lemma firmware_run ins :
  forall w : firmware_world,
    s_on_off_callback w = Some on_zigbee_on_off_command ->
    s_relay_state (zb_app (zb_run ins w)) =
      last_command (s_relay_state (zb_app w)) ins
    /\ (relay_consistent (zb_app w) -> relay_consistent (zb_app (zb_run ins w)))
    /\ (forall p, p <> RELAY_GPIO_PIN ->
          gpio_out (zb_app (zb_run ins w)) p = gpio_out (zb_app w) p)
    /\ length (filter is_level_write (gpio_calls (zb_app (zb_run ins w)))) =
       (length (filter is_level_write (gpio_calls (zb_app w)))
        + length (filter is_command ins))%nat.
Proof.
  induction ins as [|i ins IH]; intros w Hcb.
  - cbn. repeat split; auto.
  - change (zb_run (i :: ins) w) with (zb_run ins (zb_step w i)).
    destruct (firmware_step w i Hcb) as (C & A).
    destruct (IH _ C) as (I1 & I2 & I3 & I4).
    rewrite I1, I4, A. unfold last_command, is_command. cbn [fold_left filter].
    destruct (command_of i) as [on|].
    + destruct (on_zigbee_on_off_command_effect on (zb_app w)) as (E1 & E2 & E3 & E4).
      cbn zeta in *. rewrite E1, E4, filter_app, length_app. cbn [length filter is_level_write].
      split; [reflexivity|]. split; [|split].
      * intros _. apply I2. now rewrite A.
      * intros p Hp. rewrite (I3 p Hp), A. now apply E3.
      * cbn. lia.
    + split; [reflexivity|]. split; [|split].
      * intros Hc. apply I2. now rewrite A.
      * intros p Hp. now rewrite (I3 p Hp), A.
      * lia.
Qed.

(** X13.  With [on_zigbee_on_off_command] registered, after any sequence
    of inputs to the main loop the relay's stored state is the value of
    the most recent on/off command the attribute handler forwarded, or
    the state at the start when there was none: signals, retries, other
    actions and rejected messages in between do not count. *)
Theorem relay_follows_last_command :
  forall (ins : list zb_input) (w : firmware_world),
    s_on_off_callback w = Some on_zigbee_on_off_command ->
    relay_get_state (zb_app (zb_run ins w)) =
    last_command (relay_get_state (zb_app w)) ins.
Proof.
  intros ins w Hcb. apply (firmware_run ins w Hcb).
Qed.

Lemma relay_follows_last_command_witness :
  relay_get_state
    (zb_app (zb_run [turn true;
                     IN_signal true (zdo_signal ESP_ZB_BDB_SIGNAL_STEERING ESP_FAIL);
                     IN_elapse 2000%N;
                     turn false;
                     IN_action 0x1005 None]
               (firmware_wired relay_cold))) = false.
Proof.
  exact (relay_follows_last_command
           [turn true;
            IN_signal true (zdo_signal ESP_ZB_BDB_SIGNAL_STEERING ESP_FAIL);
            IN_elapse 2000%N;
            turn false;
            IN_action 0x1005 None]
           (firmware_wired relay_cold) eq_refl).
Defined.

(** X14.  With [on_zigbee_on_off_command] registered, the main loop
    writes the relay pin exactly once per forwarded command and at no
    other time; if the pin carried the level of the stored state at the
    start it does so after every run; and no other pin is ever driven. *)
Theorem firmware_writes_pin_once_per_command :
  forall (ins : list zb_input) (w : firmware_world),
    s_on_off_callback w = Some on_zigbee_on_off_command ->
    length (filter is_level_write (gpio_calls (zb_app (zb_run ins w)))) =
      (length (filter is_level_write (gpio_calls (zb_app w)))
       + length (filter is_command ins))%nat
    /\ (relay_consistent (zb_app w) -> relay_consistent (zb_app (zb_run ins w)))
    /\ (forall p, p <> RELAY_GPIO_PIN ->
          gpio_out (zb_app (zb_run ins w)) p = gpio_out (zb_app w) p).
Proof.
  intros ins w Hcb.
  destruct (firmware_run ins w Hcb) as (_ & H2 & H3 & H4).
  repeat split; assumption.
Qed.

Lemma firmware_writes_pin_once_per_command_witness :
  length (filter is_level_write
            (gpio_calls (zb_app (zb_run [turn true; turn true; IN_elapse 5%N]
                                   (firmware_wired relay_cold))))) = 2%nat.
Proof.
  exact (proj1 (firmware_writes_pin_once_per_command
                  [turn true; turn true; IN_elapse 5%N]
                  (firmware_wired relay_cold) eq_refl)).
Defined.

Lemma relay_init_pair ret r :
  relay_init ret r = (ret, snd (relay_init ret r)).
Proof.
  rewrite <- (relay_init_returns ret r) at 2. apply surjective_pairing.
Qed.

Local Ltac boot_cases :=
  repeat match goal with
         | |- context [if ?c then _ else _] => destruct c eqn:?
         end.

(** Start-up in closed form: how it ends, the firmware world it leaves,
    and which Zigbee calls, NVS erasures and relay initialisations it has
    added to the history. *)
Lemma boot_sequence_run env w :
  let r := boot_sequence env w in
  fst r = Stop (expected_outcome env)
  /\ boot_fw (snd r) = expected_fw env (boot_fw w)
  /\ filter is_zigbee_call (boot_trace (snd r)) =
     filter is_zigbee_call (boot_trace w) ++ expected_zigbee_calls env
  /\ filter is_nvs_erase (boot_trace (snd r)) =
     filter is_nvs_erase (boot_trace w)
     ++ (if asks_erase env then [BOOT_nvs_flash_erase (env_nvs_flash_erase env)] else [])
  /\ filter is_relay_init_event (boot_trace (snd r)) =
     filter is_relay_init_event (boot_trace w)
     ++ (if nvs_comes_up env then [BOOT_relay_init (env_gpio_config env)] else [])
  /\ filter is_loop_exited (boot_trace (snd r)) = filter is_loop_exited (boot_trace w).
Proof.
  destruct env as [i1 er i2 g pc st]. destruct w as [fw tr].
  unfold boot_sequence, expected_outcome, expected_fw, expected_zigbee_calls,
    nvs_comes_up, nvs_code, asks_erase, zigbee_handler_init, zigbee_handler_start,
    boot_relay_init, boot_register_on_off_callback, nvs_flash_init, nvs_flash_erase,
    ESP_ERROR_CHECK, boot_bind, boot_emit, boot_ret, boot_stop, relay_initialised.
  cbn [env_nvs_flash_init_1 env_nvs_flash_erase env_nvs_flash_init_2 env_gpio_config
       env_esp_zb_platform_config env_esp_zb_start boot_fw boot_trace fst snd].
  destruct ((i1 =? ESP_ERR_NVS_NO_FREE_PAGES)
            || (i1 =? ESP_ERR_NVS_NEW_VERSION_FOUND));
    [destruct (er =? ESP_OK); [destruct (i2 =? ESP_OK)|] | destruct (i1 =? ESP_OK)];
    cbn [fst snd boot_fw boot_trace negb andb];
    try (repeat split; cbn; rewrite ?filter_app; cbn;
         rewrite ?app_nil_r, <- ?app_assoc; reflexivity);
    (generalize (relay_init_returns g (zb_app fw));
     destruct (relay_init g (zb_app fw)) as [ret r]; cbn [fst snd]; intros ->;
     destruct (g =? ESP_OK);
     [destruct (pc =? ESP_OK); [destruct (st =? ESP_OK)|]|]);
    cbn [fst snd boot_fw boot_trace negb andb];
    repeat split; cbn; rewrite ?filter_app; cbn;
    rewrite ?app_nil_r, <- ?app_assoc; reflexivity.
Qed.

Lemma relay_init_failure_keeps ret w :
  ret <> ESP_OK ->
  s_relay_state (snd (relay_init ret w)) = s_relay_state w
  /\ forall p, gpio_out (snd (relay_init ret w)) p = gpio_out w p.
Proof.
  intros H. apply Z.eqb_neq in H. unfold relay_init, gpio_config.
  rewrite H. cbn. now split.
Qed.

Lemma app_main_runs_boot_sequence env w : app_main env w = boot_sequence env w.
Proof.
  unfold app_main, boot_bind.
  destruct (boot_sequence_run env w) as (H & _). cbn zeta in H.
  destruct (boot_sequence env w) as [[a|o] w']; [discriminate H | reflexivity].
Qed.


Lemma expected_outcome_main_loop env :
  expected_outcome env = BOOT_in_main_loop <->
  nvs_comes_up env = true
  /\ env_gpio_config env = ESP_OK
  /\ env_esp_zb_platform_config env = ESP_OK
  /\ env_esp_zb_start env = ESP_OK.
Proof.
  unfold expected_outcome. rewrite <- !Z.eqb_eq.
  destruct (nvs_comes_up env), (env_gpio_config env =? ESP_OK),
    (env_esp_zb_platform_config env =? ESP_OK), (env_esp_zb_start env =? ESP_OK);
    cbn; split; try discriminate; try tauto; intuition discriminate.
Qed.

(** X15.  [app_main] ends inside the Zigbee main loop exactly when NVS
    comes up (at once or after the erase), [gpio_config] succeeds for the
    relay, and [esp_zb_platform_config] and [esp_zb_start] succeed.  In
    that case the loop starts with the relay stored OFF and its pin at the
    OFF level, with [on_zigbee_on_off_command] in the callback slot, with
    the endpoint advertising the relay's state as its on/off attribute,
    and the Zigbee calls were made in this order: platform configuration,
    stack init, device registration, action handler, signal handler,
    channel mask, callback registration, stack start, main loop. *)
Theorem app_main_enters_main_loop_fail_safe :
  forall (env : boot_env) (w : boot_world),
    (outcome_of (app_main env w) = BOOT_in_main_loop <->
     nvs_comes_up env = true
     /\ env_gpio_config env = ESP_OK
     /\ env_esp_zb_platform_config env = ESP_OK
     /\ env_esp_zb_start env = ESP_OK)
    /\ (outcome_of (app_main env w) = BOOT_in_main_loop ->
        let fw := boot_fw (snd (app_main env w)) in
        s_on_off_callback fw = Some on_zigbee_on_off_command
        /\ relay_get_state (zb_app fw) = false
        /\ gpio_out (zb_app fw) RELAY_GPIO_PIN = 0
        /\ advertised_on_off create_on_off_light_ep = Some (relay_get_state (zb_app fw))
        /\ filter is_zigbee_call (boot_trace (snd (app_main env w))) =
           filter is_zigbee_call (boot_trace w)
           ++ [BOOT_esp_zb_platform_config ESP_OK;
               BOOT_esp_zb_init false 3000;
               BOOT_esp_zb_device_register create_on_off_light_ep;
               BOOT_esp_zb_core_action_handler_register;
               BOOT_esp_zb_app_signal_handler_register;
               BOOT_esp_zb_set_primary_network_channel_set;
               BOOT_register_on_off_callback;
               BOOT_esp_zb_start false ESP_OK;
               BOOT_esp_zb_stack_main_loop]).
Proof.
  intros env w. rewrite app_main_runs_boot_sequence.
  destruct (boot_sequence_run env w) as (Ho & Hfw & Hz & _). cbn zeta in *.
  unfold outcome_of. rewrite Ho.
  split; [apply expected_outcome_main_loop|].
  intros H. apply expected_outcome_main_loop in H.
  destruct H as (Hnvs & Hg & Hpc & Hst).
  rewrite Hfw, Hz. unfold expected_fw, expected_zigbee_calls.
  rewrite Hnvs, Hg, Hpc, Hst. cbn. repeat split.
Qed.

Lemma app_main_enters_main_loop_fail_safe_witness :
  outcome_of (app_main all_ok (power_on relay_energised)) = BOOT_in_main_loop
  /\ relay_get_state
       (zb_app (boot_fw (snd (app_main all_ok (power_on relay_energised))))) = false.
Proof.
  destruct (app_main_enters_main_loop_fail_safe all_ok (power_on relay_energised))
    as (Hiff & Hsafe).
  assert (Hloop : outcome_of (app_main all_ok (power_on relay_energised))
                  = BOOT_in_main_loop).
  { apply Hiff. repeat split. }
  split; [exact Hloop|].
  exact (proj1 (proj2 (Hsafe Hloop))).
Defined.

(** X16.  When NVS has come up but [relay_init] fails, [app_main] returns
    without having made a single Zigbee call: no stack is configured or
    started, no callback is registered, and the relay's stored state and
    every output latch are as they were. *)
Theorem app_main_without_relay_starts_nothing :
  forall (env : boot_env) (w : boot_world),
    nvs_comes_up env = true ->
    env_gpio_config env <> ESP_OK ->
    let r := app_main env w in
    outcome_of r = BOOT_returned
    /\ filter is_zigbee_call (boot_trace (snd r)) = filter is_zigbee_call (boot_trace w)
    /\ s_on_off_callback (boot_fw (snd r)) = s_on_off_callback (boot_fw w)
    /\ zb_trace (boot_fw (snd r)) = zb_trace (boot_fw w)
    /\ s_relay_state (zb_app (boot_fw (snd r))) = s_relay_state (zb_app (boot_fw w))
    /\ forall p, gpio_out (zb_app (boot_fw (snd r))) p = gpio_out (zb_app (boot_fw w)) p.
Proof.
  intros env w Hnvs Hg. cbn zeta. rewrite app_main_runs_boot_sequence.
  destruct (boot_sequence_run env w) as (Ho & Hfw & Hz & _). cbn zeta in *.
  unfold outcome_of. rewrite Ho, Hfw, Hz.
  unfold expected_outcome, expected_fw, expected_zigbee_calls.
  pose proof Hg as Hg'. apply Z.eqb_neq in Hg'. rewrite Hnvs, Hg'. cbn.
  rewrite app_nil_r.
  destruct (relay_init_failure_keeps (env_gpio_config env)
              (zb_app (boot_fw w)) Hg) as (Hs & Hp).
  repeat split; assumption.
Qed.

Lemma app_main_without_relay_starts_nothing_witness :
  outcome_of (app_main gpio_refused (power_on relay_energised)) = BOOT_returned
  /\ filter is_zigbee_call
       (boot_trace (snd (app_main gpio_refused (power_on relay_energised)))) = [].
Proof.
  assert (Hg : env_gpio_config gpio_refused <> ESP_OK) by discriminate.
  destruct (app_main_without_relay_starts_nothing gpio_refused
              (power_on relay_energised) eq_refl Hg) as (Ho & Hz & _).
  split; [exact Ho | exact Hz].
Defined.

(** X17.  [app_main] erases the NVS partition exactly when the first
    [nvs_flash_init] answers "no free pages" or "new version found", and
    then once.  When NVS does not come up, [app_main] aborts with the
    failing code before anything else has happened: the relay is not
    initialised, no Zigbee call is made, and the firmware world is as it
    was. *)
Theorem app_main_nvs_stage :
  forall (env : boot_env) (w : boot_world),
    let r := app_main env w in
    filter is_nvs_erase (boot_trace (snd r)) =
      filter is_nvs_erase (boot_trace w)
      ++ (if asks_erase env then [BOOT_nvs_flash_erase (env_nvs_flash_erase env)] else [])
    /\ (nvs_comes_up env = false ->
        outcome_of r = BOOT_aborted (nvs_code env)
        /\ nvs_code env <> ESP_OK
        /\ boot_fw (snd r) = boot_fw w
        /\ filter is_relay_init_event (boot_trace (snd r)) =
           filter is_relay_init_event (boot_trace w)
        /\ filter is_zigbee_call (boot_trace (snd r)) =
           filter is_zigbee_call (boot_trace w)).
Proof.
  intros env w. cbn zeta. rewrite app_main_runs_boot_sequence.
  destruct (boot_sequence_run env w) as (Ho & Hfw & Hz & He & Hr & _).
  cbn zeta in *. split; [exact He|].
  intros Hnvs. unfold outcome_of.
  rewrite Ho, Hfw, Hz, Hr.
  unfold expected_outcome, expected_fw, expected_zigbee_calls.
  rewrite Hnvs. cbn. rewrite !app_nil_r.
  repeat split.
  unfold nvs_comes_up in Hnvs. unfold nvs_code, asks_erase.
  destruct ((env_nvs_flash_init_1 env =? ESP_ERR_NVS_NO_FREE_PAGES)
            || (env_nvs_flash_init_1 env =? ESP_ERR_NVS_NEW_VERSION_FOUND)).
  - destruct (env_nvs_flash_erase env =? ESP_OK) eqn:E.
    + cbn in Hnvs. now apply Z.eqb_neq.
    + now apply Z.eqb_neq.
  - now apply Z.eqb_neq.
Qed.

Lemma app_main_nvs_stage_witness :
  let env := {| env_nvs_flash_init_1 := ESP_ERR_NVS_NO_FREE_PAGES;
                env_nvs_flash_erase := ESP_OK;
                env_nvs_flash_init_2 := ESP_FAIL;
                env_gpio_config := ESP_OK;
                env_esp_zb_platform_config := ESP_OK;
                env_esp_zb_start := ESP_OK |} in
  outcome_of (app_main env (power_on relay_energised)) = BOOT_aborted ESP_FAIL
  /\ boot_fw (snd (app_main env (power_on relay_energised)))
     = boot_fw (power_on relay_energised).
Proof.
  intros env.
  destruct (proj2 (app_main_nvs_stage env (power_on relay_energised)) eq_refl)
    as (Ho & _ & Hfw & _).
  split; [exact Ho | exact Hfw].
Defined.


(** X19.  From start-up to any later moment: if [app_main] has entered
    the main loop, then after any sequence of signals, actions and time
    the relay's stored state is the last on/off command forwarded since
    start-up, and OFF if there has been none; and the relay pin carries
    the level of that state. *)
Theorem fan_stays_off_until_commanded :
  forall (env : boot_env) (w : boot_world) (ins : list zb_input),
    outcome_of (app_main env w) = BOOT_in_main_loop ->
    let fw := zb_run ins (boot_fw (snd (app_main env w))) in
    relay_get_state (zb_app fw) = last_command false ins
    /\ gpio_out (zb_app fw) RELAY_GPIO_PIN = if last_command false ins then 1 else 0.
Proof.
  intros env w ins. rewrite app_main_runs_boot_sequence.
  destruct (boot_sequence_run env w) as (Ho & Hfw & _). cbn zeta in *.
  unfold outcome_of. rewrite Ho, Hfw.
  intros H. apply expected_outcome_main_loop in H.
  destruct H as (Hnvs & Hg & Hpc & Hst).
  unfold expected_fw. rewrite Hnvs, Hg, Hpc. cbn [Z.eqb ESP_OK andb].
  match goal with |- context [zb_run ins ?fw0] =>
    destruct (firmware_run ins fw0 eq_refl) as (H1 & H2 & _) end.
  unfold relay_get_state. rewrite H1. split; [reflexivity|].
  unfold relay_consistent in H2. rewrite H2, H1; reflexivity.
Qed.

Lemma fan_stays_off_until_commanded_witness :
  relay_get_state
    (zb_app (zb_run [IN_signal true (zdo_signal ESP_ZB_ZDO_SIGNAL_SKIP_STARTUP ESP_OK);
                     IN_signal true (zdo_signal ESP_ZB_BDB_SIGNAL_STEERING ESP_OK)]
               (boot_fw (snd (app_main all_ok (power_on relay_energised)))))) = false
  /\ relay_get_state
       (zb_app (zb_run [turn true]
                  (boot_fw (snd (app_main all_ok (power_on relay_energised)))))) = true.
Proof.
  split.
  - exact (proj1 (fan_stays_off_until_commanded all_ok (power_on relay_energised)
                    [IN_signal true (zdo_signal ESP_ZB_ZDO_SIGNAL_SKIP_STARTUP ESP_OK);
                     IN_signal true (zdo_signal ESP_ZB_BDB_SIGNAL_STEERING ESP_OK)]
                    eq_refl)).
  - exact (proj1 (fan_stays_off_until_commanded all_ok (power_on relay_energised)
                    [turn true] eq_refl)).
Defined.

(** X20.  [zigbee_handler_set_on_off_attribute] makes exactly one write
    to the stack, with access checking off, and turns the stack's answer
    into one of two codes: [ESP_OK] exactly when the answer is success,
    [ESP_FAIL] for every other answer, whose value is only logged.  The
    write names the very endpoint, cluster and attribute that the inbound
    attribute handler accepts: a boolean success message so addressed and
    carrying the written value is forwarded with that value. *)
Theorem set_on_off_attribute_maps_status :
  forall (stack_status : Z) (on : bool) (tr : list push_event),
    let r := zigbee_handler_set_on_off_attribute stack_status on tr in
    let write := PUSH_set_attribute_val ZIGBEE_ENDPOINT ESP_ZB_ZCL_CLUSTER_ID_ON_OFF
                   ESP_ZB_ZCL_CLUSTER_SERVER_ROLE ESP_ZB_ZCL_ATTR_ON_OFF_ON_OFF_ID
                   on false stack_status in
    (fst r = ESP_OK <-> stack_status = ESP_ZB_ZCL_STATUS_SUCCESS)
    /\ (fst r <> ESP_OK -> fst r = ESP_FAIL)
    /\ filter is_push_write (snd r) = filter is_push_write tr ++ [write]
    /\ forwards (message_like_write write) = Some on.
Proof.
  intros status on tr. cbn zeta. unfold zigbee_handler_set_on_off_attribute.
  destruct (status =? ESP_ZB_ZCL_STATUS_SUCCESS) eqn:E; cbn [fst snd].
  - apply Z.eqb_eq in E. split; [tauto|]. split; [congruence|].
    split; [|reflexivity]. rewrite !filter_app. cbn. now rewrite app_nil_r.
  - apply Z.eqb_neq in E. split; [split; [discriminate | intros H; contradiction]|].
    split; [reflexivity|]. split; [|reflexivity].
    rewrite !filter_app. cbn. now rewrite !app_nil_r.
Qed.

Lemma set_on_off_attribute_maps_status_witness :
  fst (zigbee_handler_set_on_off_attribute ESP_ZB_ZCL_STATUS_SUCCESS true []) = ESP_OK
  /\ fst (zigbee_handler_set_on_off_attribute 0x88 true []) = ESP_FAIL.
Proof.
  split.
  - apply (proj1 (set_on_off_attribute_maps_status ESP_ZB_ZCL_STATUS_SUCCESS true [])).
    reflexivity.
  - apply (proj1 (proj2 (set_on_off_attribute_maps_status 0x88 true []))).
    discriminate.
Defined.

Lemma zdo_steers_at_once_exactly_witness :
  steers_at_once false (zdo_signal ESP_ZB_ZDO_SIGNAL_SKIP_STARTUP ESP_FAIL) = true
  /\ begin_steering_count
       (zb_trace (zb_zdo_signal_handler false
                    (zdo_signal ESP_ZB_ZDO_SIGNAL_SKIP_STARTUP ESP_FAIL)
                    (firmware_wired relay_cold))) = 1%nat.
Proof.
  destruct (zdo_steers_at_once_exactly relay_world (firmware_wired relay_cold) false
              (zdo_signal ESP_ZB_ZDO_SIGNAL_SKIP_STARTUP ESP_FAIL)) as (Hc & Hiff).
  split.
  - apply Hiff. left. reflexivity.
  - exact Hc.
Defined.

Lemma zdo_arms_retry_exactly_witness :
  arms_retry (zdo_signal ESP_ZB_BDB_SIGNAL_DEVICE_REBOOT ESP_FAIL) = true
  /\ zb_alarms (zb_zdo_signal_handler false
                  (zdo_signal ESP_ZB_BDB_SIGNAL_DEVICE_REBOOT ESP_FAIL)
                  (zb_zdo_signal_handler false
                     (zdo_signal ESP_ZB_BDB_SIGNAL_STEERING ESP_FAIL)
                     (firmware_wired relay_cold)))
     = [steering_retry 0 1000; steering_retry 0 2000].
Proof.
  destruct (zdo_arms_retry_exactly relay_world
              (zb_zdo_signal_handler false
                 (zdo_signal ESP_ZB_BDB_SIGNAL_STEERING ESP_FAIL)
                 (firmware_wired relay_cold))
              false (zdo_signal ESP_ZB_BDB_SIGNAL_DEVICE_REBOOT ESP_FAIL))
    as (_ & Hq & _ & Hiff).
  split.
  - apply Hiff. split; [right; left; reflexivity | discriminate].
  - exact Hq.
Defined.
